(** * FortressConnection: the panel client of FortressConnection.py

    A shallow embedding of the client class and of the Python primitives
    it relies on, followed by the properties of the frame decoder, the
    alarm guard, the reconnect scheduling and the teardown.

    Conventions.
    - A Python [bytes] value is a [list byte]; a Python [int] is a [Z].
    - A method of the class is a computation in the monad [M]: it reads and
      writes the whole program state and either returns or raises.  What
      was written before a [raise] stays written, as in Python.
    - The three callbacks belong to the host.  The model records whether a
      handler is registered and logs every invocation in [calls]; a handler
      returns normally and does not call back into the client.
    - Socket calls are logged in [wire].  What the network decides is an
      input: whether [connect] returns or raises, what [select] and
      [recv] deliver, and whether [shutdown] returns or raises.  A [send]
      or [close] on a held socket returns.
    - Logging and console output ([_info], [_debug], [print]) change
      nothing the client reads back and are left out. *)

From Stdlib Require Import ZArith Strings.Byte Strings.String.
From stdpp Require Import base option list numbers.

Local Open Scope Z_scope.

(** ** Python primitives *)

Module Py.

(** The exceptions that the modelled code can meet. *)
Inductive exn : Type :=
  | AttributeError
  | IndexError
  | ValueError
  | UnicodeEncodeError
  | OSError
  | KeyboardInterrupt
  | SystemExit.

(** Outcome of an expression that may raise. *)
Inductive result (A : Type) : Type :=
  | Ret (a : A)
  | Raise (e : exn).
Arguments Ret {A} a.
Arguments Raise {A} e.

Definition rbind {A B} (r : result A) (k : A -> result B) : result B :=
  match r with
  | Ret a => k a
  | Raise e => Raise e
  end.

#[global] Instance byte_eq_dec : EqDecision byte := Byte.byte_eq_dec.

Definition byte_to_Z (b : byte) : Z := Z.of_N (Byte.to_N b).

(** The byte with the given value; only used on values below 256. *)
Definition Z_to_byte (z : Z) : byte :=
  match Byte.of_N (Z.to_N z) with
  | Some b => b
  | None => x00
  end.

(** [len(data)] *)
Definition len (data : list byte) : Z := Z.of_nat (length data).

(** [data[i]] for a non-negative literal index [i]. *)
Definition index (data : list byte) (i : nat) : result Z :=
  match data !! i with
  | Some b => Ret (byte_to_Z b)
  | None => Raise IndexError
  end.

(** [data[i:j]] for non-negative literal bounds. *)
Definition slice (data : list byte) (i j : nat) : list byte :=
  take (j - i) (drop i data).

(** [int.from_bytes(b, byteorder='big')] *)
Definition int_from_bytes (b : list byte) : Z :=
  fold_left (fun acc x => acc * 256 + byte_to_Z x) b 0.

(** [chr(i)]: the code point [i], or [ValueError] outside [range(0x110000)]. *)
Definition chr (i : Z) : result Z :=
  if (0 <=? i) && (i <? 0x110000) then Ret i else Raise ValueError.

(** [s.encode('utf-8')] for a one-character string of code point [cp]. *)
Definition encode_utf8 (cp : Z) : result (list byte) :=
  if cp <? 0x80 then
    Ret [Z_to_byte cp]
  else if cp <? 0x800 then
    Ret [Z_to_byte (Z.lor 0xC0 (Z.shiftr cp 6));
         Z_to_byte (Z.lor 0x80 (Z.land cp 0x3F))]
  else if (0xD800 <=? cp) && (cp <=? 0xDFFF) then
    Raise UnicodeEncodeError
  else if cp <? 0x10000 then
    Ret [Z_to_byte (Z.lor 0xE0 (Z.shiftr cp 12));
         Z_to_byte (Z.lor 0x80 (Z.land (Z.shiftr cp 6) 0x3F));
         Z_to_byte (Z.lor 0x80 (Z.land cp 0x3F))]
  else
    Ret [Z_to_byte (Z.lor 0xF0 (Z.shiftr cp 18));
         Z_to_byte (Z.lor 0x80 (Z.land (Z.shiftr cp 12) 0x3F));
         Z_to_byte (Z.lor 0x80 (Z.land (Z.shiftr cp 6) 0x3F));
         Z_to_byte (Z.lor 0x80 (Z.land cp 0x3F))].

(** [data.startswith(sub)] *)
Fixpoint startswith (data sub : list byte) : bool :=
  match sub, data with
  | [], _ => true
  | _ :: _, [] => false
  | x :: sub', y :: data' => bool_decide (x = y) && startswith data' sub'
  end.

(** [data.find(sub)], counting from position [i] of the whole buffer. *)
Fixpoint find_from (data sub : list byte) (i : Z) : Z :=
  if startswith data sub then i
  else match data with
       | [] => -1
       | _ :: data' => find_from data' sub (i + 1)
       end.

(** [data.find(sub)]: the lowest position of [sub] in [data], or [-1]. *)
Definition find (data sub : list byte) : Z := find_from data sub 0.

End Py.

Import Py.

(** ** Module constants *)

Definition HEARTBEAT_INTERVAL : Z := 4.
Definition TIMEOUT_AFTER : Z := 9.
Definition RETRY_AFTER_ERROR : Z := 3.

Definition HANDSHAKE : list byte :=
  [x00; x00; x00; x03; x0f; x00; x00; x08; x00; x0a;
   x4a; x51; x45; x42; x53; x53; x42; x4f; x4c; x41].
Definition BIND_ME : list byte :=
  [x00; x00; x00; x03; x04; x00; x00; x90; x02].
Definition CONNECTION_IS_BOUND : list byte :=
  [x00; x00; x00; x03; x04; x00; x00; x09; x00].
Definition HEARTBEAT : list byte :=
  [x00; x00; x00; x03; x03; x00; x00; x15].
Definition HEARTBEAT_ACK : list byte :=
  [x00; x00; x00; x03; x03; x00; x00; x16].
Definition COMMAND : list byte :=
  [x00; x00; x00; x03; x57; x00; x00; x90; x01; x00; x10; x00; x00].

Definition ALARMING : list byte := [x01].

(** [_to_bin_char(ch)] is [bytes(chr(ch), 'utf-8')]. *)
Definition _to_bin_char (ch : Z) : result (list byte) :=
  rbind (chr ch) encode_utf8.

(** Class attributes. *)
Definition DISARM : list byte := [x10].
Definition ARM : list byte := [x00].
Definition STAY_ARM : list byte := [x20].

(** ** Program state *)

(** What a timer runs when it expires: a bound method of the client with
    its argument list. *)
Inductive target : Type :=
  | _reconnect_target (more_info : string)
  | _send_heartbeat_target.

(** A [threading.Timer] or [RepeatingTimer] object. *)
Record Timer : Type := mkTimer {
  interval : Z;
  function : target;
  repeating : bool;
  started : bool;
  cancelled : bool }.

(** One call on a socket object, [fd] numbering the sockets created. *)
Inductive sock_call : Type :=
  | sock_connect (fd : nat)
  | sock_send (fd : nat) (msg : list byte)
  | sock_shutdown (fd : nat)
  | sock_close (fd : nat).

(** One invocation of a handler of the host, with its arguments. *)
Inductive Call : Type :=
  | onErrorChange_call (isGood : bool)
  | onStatusChange_call (status : option (list byte))
  | onAlarmChange_call (isAlarming : option bool) (zone : Z).

(** The attributes of a [FortressConnection] object, as [__init__] lists
    them.  A timer or socket attribute holds [None] or a reference; a
    callback attribute is [true] when a handler is registered. *)
Record FortressConnection : Type := mkFortressConnection {
  timeout_timer : option nat;
  fortress_socket : option nat;
  arm_status : option (list byte);
  alarming : option bool;
  heartbeat_timer : option nat;
  all_good : bool;
  count : Z;
  _onStatusChange : bool;
  _onErrorChange : bool;
  _onAlarmChange : bool }.

(** Everything outside the object: the timer objects created so far
    (a reference is a position in [timers]), the number of sockets
    created, the socket calls made and the handler invocations made. *)
Record World : Type := mkWorld {
  timers : list Timer;
  sockets : nat;
  wire : list sock_call;
  calls : list Call }.

Record State : Type := mkState {
  self : FortressConnection;
  world : World }.

(** [__init__], with the handlers the host registers afterwards. *)
Definition __init__ (onStatus onError onAlarm : bool) : FortressConnection :=
  {| timeout_timer := None;
     fortress_socket := None;
     arm_status := None;
     alarming := None;
     heartbeat_timer := None;
     all_good := false;
     count := 0;
     _onStatusChange := onStatus;
     _onErrorChange := onError;
     _onAlarmChange := onAlarm |}.

Definition empty_world : World :=
  {| timers := []; sockets := 0%nat; wire := []; calls := [] |}.

(** ** The monad of methods *)

Definition M (A : Type) : Type := State -> result A * State.

Definition ret {A} (a : A) : M A := fun s => (Ret a, s).

Definition raise {A} (e : exn) : M A := fun s => (Raise e, s).

Definition bind {A B} (m : M A) (k : A -> M B) : M B :=
  fun s =>
    match m s with
    | (Ret a, s') => k a s'
    | (Raise e, s') => (Raise e, s')
    end.

Definition lift {A} (r : result A) : M A := fun s => (r, s).

Declare Scope py_scope.
Delimit Scope py_scope with py.
Notation "'do' x <- m ; k" := (bind m (fun x => k))
  (at level 10, x name, m at level 100, k at level 200) : py_scope.
Notation "m ;; k" := (bind m (fun _ => k))
  (at level 100, k at level 200, right associativity) : py_scope.
Local Open Scope py_scope.

(** [if b: m] *)
Definition when (b : bool) (m : M unit) : M unit :=
  if b then m else ret tt.

(** Truth value of an object: [None], [False], [b''] are false. *)
Definition truthy_bytes (data : list byte) : bool :=
  match data with [] => false | _ => true end.
Definition truthy_flag (v : option bool) : bool :=
  match v with Some true => true | _ => false end.
Definition truthy_ref (v : option nat) : bool :=
  match v with Some _ => true | None => false end.

(** Reading an attribute of [self]. *)
Definition attr {A} (f : FortressConnection -> A) : M A :=
  fun s => (Ret (f (self s)), s).

Definition update (f : FortressConnection -> FortressConnection) : M unit :=
  fun s => (Ret tt, {| self := f (self s); world := world s |}).

Definition effect (f : World -> World) : M unit :=
  fun s => (Ret tt, {| self := self s; world := f (world s) |}).

(** The object [c] with one attribute replaced. *)
Definition with_timeout_timer (v : option nat) (c : FortressConnection) :
    FortressConnection :=
  mkFortressConnection
    v (fortress_socket c) (arm_status c) (alarming c)
    (heartbeat_timer c) (all_good c) (count c)
    (_onStatusChange c) (_onErrorChange c) (_onAlarmChange c).
Definition with_fortress_socket (v : option nat) (c : FortressConnection) :
    FortressConnection :=
  mkFortressConnection
    (timeout_timer c) v (arm_status c) (alarming c)
    (heartbeat_timer c) (all_good c) (count c)
    (_onStatusChange c) (_onErrorChange c) (_onAlarmChange c).
Definition with_arm_status (v : option (list byte)) (c : FortressConnection) :
    FortressConnection :=
  mkFortressConnection
    (timeout_timer c) (fortress_socket c) v (alarming c)
    (heartbeat_timer c) (all_good c) (count c)
    (_onStatusChange c) (_onErrorChange c) (_onAlarmChange c).
Definition with_alarming (v : option bool) (c : FortressConnection) :
    FortressConnection :=
  mkFortressConnection
    (timeout_timer c) (fortress_socket c) (arm_status c) v
    (heartbeat_timer c) (all_good c) (count c)
    (_onStatusChange c) (_onErrorChange c) (_onAlarmChange c).
Definition with_heartbeat_timer (v : option nat) (c : FortressConnection) :
    FortressConnection :=
  mkFortressConnection
    (timeout_timer c) (fortress_socket c) (arm_status c) (alarming c)
    v (all_good c) (count c)
    (_onStatusChange c) (_onErrorChange c) (_onAlarmChange c).
Definition with_all_good (v : bool) (c : FortressConnection) :
    FortressConnection :=
  mkFortressConnection
    (timeout_timer c) (fortress_socket c) (arm_status c) (alarming c)
    (heartbeat_timer c) v (count c)
    (_onStatusChange c) (_onErrorChange c) (_onAlarmChange c).
Definition with_count (v : Z) (c : FortressConnection) :
    FortressConnection :=
  mkFortressConnection
    (timeout_timer c) (fortress_socket c) (arm_status c) (alarming c)
    (heartbeat_timer c) (all_good c) v
    (_onStatusChange c) (_onErrorChange c) (_onAlarmChange c).

(** Assignments [self.x = v]. *)
Definition set_timeout_timer (v : option nat) : M unit :=
  update (with_timeout_timer v).
Definition set_fortress_socket (v : option nat) : M unit :=
  update (with_fortress_socket v).
Definition set_arm_status (v : option (list byte)) : M unit :=
  update (with_arm_status v).
Definition set_alarming (v : option bool) : M unit :=
  update (with_alarming v).
Definition set_heartbeat_timer (v : option nat) : M unit :=
  update (with_heartbeat_timer v).
Definition set_all_good (v : bool) : M unit :=
  update (with_all_good v).
Definition set_count (v : Z) : M unit :=
  update (with_count v).

(** The world with one component changed. *)
Definition with_timers (f : list Timer -> list Timer) (w : World) : World :=
  mkWorld (f (timers w)) (sockets w) (wire w) (calls w).
Definition with_sockets (f : nat -> nat) (w : World) : World :=
  mkWorld (timers w) (f (sockets w)) (wire w) (calls w).
Definition with_wire (f : list sock_call -> list sock_call) (w : World) :
    World :=
  mkWorld (timers w) (sockets w) (f (wire w)) (calls w).
Definition with_calls (f : list Call -> list Call) (w : World) : World :=
  mkWorld (timers w) (sockets w) (wire w) (f (calls w)).

(** A new timer object, not yet started: [threading.Timer(interval,
    function, args)] when [rep] is false. *)
Definition new_timer (rep : bool) (i : Z) (f : target) : M nat :=
  fun s =>
    (Ret (length (timers (world s))),
     {| self := self s;
        world := with_timers (fun ts => ts ++ [mkTimer i f rep false false])
                   (world s) |}).
Definition threading_Timer := new_timer false.

(** Modelled from the spec: the class [RepeatingTimer], whose module is
    not among the sources.  It is the periodic heartbeat emitter: built
    from a period and a function, started by [start] and stopped by
    [cancel], as a [threading.Timer] that runs its function again every
    period. *)
Definition RepeatingTimer := new_timer true.

Definition start_timer (t : Timer) : Timer :=
  mkTimer (interval t) (function t) (repeating t) true (cancelled t).
Definition cancel_timer (t : Timer) : Timer :=
  mkTimer (interval t) (function t) (repeating t) (started t) true.

(** [ref.start()] and [ref.cancel()]; on [None] the attribute lookup fails. *)
Definition start (ref : option nat) : M unit :=
  match ref with
  | Some id => effect (with_timers (alter start_timer id))
  | None => raise AttributeError
  end.
Definition cancel (ref : option nat) : M unit :=
  match ref with
  | Some id => effect (with_timers (alter cancel_timer id))
  | None => raise AttributeError
  end.

(** Socket objects: [socket.socket(...)] and the calls on one. *)
Definition socket_socket : M nat :=
  fun s =>
    (Ret (sockets (world s)),
     {| self := self s; world := with_sockets S (world s) |}).

Definition on_wire (c : sock_call) : M unit :=
  effect (with_wire (fun l => l ++ [c])).

(** A method [op] of the socket that [ref] holds. *)
Definition sock (ref : option nat) (op : nat -> sock_call) : M unit :=
  match ref with
  | Some fd => on_wire (op fd)
  | None => raise AttributeError
  end.

(** Invoking a handler of the host. *)
Definition invoke (c : Call) : M unit :=
  effect (with_calls (fun l => l ++ [c])).

(** ** The methods of the class *)

(** The accessors [isAllGood], [getStatus] and [isAlarming]. *)
Definition isAllGood : M bool := attr all_good.
Definition getStatus : M (option (list byte)) := attr arm_status.
Definition isAlarming : M (option bool) := attr alarming.

(** [sendCommand] and [_send_to_socket] *)
Definition _send_to_socket (msg : list byte) : M unit :=
  do s <- attr fortress_socket;
  sock s (fun fd => sock_send fd msg).

Definition sendCommand (msg : list byte) : M unit :=
  _send_to_socket (COMMAND ++ msg ++ replicate 78 x00).

Definition _set_all_good (isGood : bool) : M unit :=
  set_all_good isGood ;;
  do cb <- attr _onErrorChange;
  when cb
    (do g <- attr all_good;
     invoke (onErrorChange_call g)).

Definition _clear_timers : M unit :=
  (do t <- attr timeout_timer;
   when (truthy_ref t)
     (do t <- attr timeout_timer;
      cancel t ;;
      set_timeout_timer None)) ;;
  do h <- attr heartbeat_timer;
  when (truthy_ref h)
    (do h <- attr heartbeat_timer;
     cancel h ;;
     set_heartbeat_timer None).

Definition _reschedule_reconnect_asap : M unit :=
  _set_all_good false ;;
  _clear_timers ;;
  (do t <- threading_Timer RETRY_AFTER_ERROR
             (_reconnect_target "...AFTER EXCEPTION");
   set_timeout_timer (Some t)) ;;
  do t <- attr timeout_timer;
  start t.

Definition _reschedule_reconnect : M unit :=
  (do t <- attr timeout_timer;
   when (truthy_ref t)
     (do t <- attr timeout_timer;
      cancel t ;;
      set_timeout_timer None)) ;;
  (do t <- threading_Timer TIMEOUT_AFTER (_reconnect_target EmptyString);
   set_timeout_timer (Some t)) ;;
  do t <- attr timeout_timer;
  start t.

Definition _send_heartbeat : M unit :=
  (do c <- attr count;
   set_count (c + 1)) ;;
  _send_to_socket HEARTBEAT.

Definition _set_alarming (cur_alarming : option bool) (zone : list byte) :
    M unit :=
  let zone := int_from_bytes zone in
  set_alarming cur_alarming ;;
  do cb <- attr _onAlarmChange;
  when cb
    (do a <- attr alarming;
     invoke (onAlarmChange_call a zone)).

Definition _set_arm_status (cur_arm_status : list byte) : M unit :=
  set_arm_status (Some cur_arm_status) ;;
  do cb <- attr _onStatusChange;
  when cb
    (do a <- attr arm_status;
     invoke (onStatusChange_call a)).

(** The locals that [_process_update] computes from a 182-byte frame. *)
Definition now_alarming (data : list byte) : result bool :=
  rbind (index data 181) (fun d =>
  rbind (_to_bin_char d) (fun c =>
  Ret (bool_decide (c = ALARMING)))).

Definition status_and_outlets (data : list byte) : Z :=
  int_from_bytes (slice data 10 13).

Definition latest_arm_status (data : list byte) : result (list byte) :=
  _to_bin_char (Z.shiftl (Z.shiftr (status_and_outlets data) 20) 4).

Definition zone (data : list byte) : result (list byte) :=
  rbind (index data 89) _to_bin_char.

(** The test that [_process_update] starts with: the buffer is none of the
    three expected shapes. *)
Definition unexpected (data : list byte) : bool :=
  negb (truthy_bytes data)
  || (bool_decide (len data <> 182) && bool_decide (len data <> 8)
      && bool_decide (data <> CONNECTION_IS_BOUND)).

Definition _process_update (data : list byte) : M unit :=
  if unexpected data then
    _reschedule_reconnect_asap
  else
    when (bool_decide (find data HEARTBEAT_ACK <> -1))
      _reschedule_reconnect ;;
    when (bool_decide (len data = 182))
      (do now_alarming <- lift (now_alarming data);
       do latest_arm_status <- lift (latest_arm_status data);
       do zone <- lift (zone data);
       (do cur <- attr arm_status;
        when (bool_decide (Some latest_arm_status <> cur))
          (_set_arm_status latest_arm_status)) ;;
       do cur <- attr alarming;
       when (bool_decide (Some now_alarming <> cur))
         (do cur <- attr alarming;
          when (negb (truthy_flag cur)
                || bool_decide (latest_arm_status = DISARM))
            (_set_alarming (Some now_alarming) zone))).

(** [_tear_down]; [shut] is what [shutdown] does on the held socket: it
    returns on a connected socket and raises on one that never connected
    or whose connection was reset.  Nothing catches what it raises. *)
Definition _tear_down_on (shut : result unit) : M unit :=
  _set_all_good false ;;
  set_count 0 ;;
  set_arm_status None ;;
  _set_alarming None [x00] ;;
  (do s <- attr fortress_socket;
   when (truthy_ref s)
     (do s <- attr fortress_socket;
      sock s sock_shutdown ;;
      lift shut ;;
      do s <- attr fortress_socket;
      sock s sock_close ;;
      set_fortress_socket None)) ;;
  _clear_timers.

(** [_tear_down] of a client whose held socket, if any, is connected, so
    that [shutdown] returns. *)
Definition _tear_down : M unit := _tear_down_on (Ret tt).

(** ** The receive loop *)

(** What one turn of the loop of [work] meets: [select] times out, [recv]
    returns a buffer (empty when the peer has closed), or one of the two
    raises. *)
Inductive io : Type :=
  | select_timeout
  | recv (data : list byte)
  | io_raise (e : exn).

(** How a call of [work] ends: it returns, or it is still blocked in
    [select] when the recorded input ends. *)
Inductive ending : Type :=
  | returned
  | waiting.

(** [try: body / except: handler] *)
Definition try_except {A} (body : M A) (handler : exn -> M A) : M A :=
  fun s =>
    match body s with
    | (Ret a, s') => (Ret a, s')
    | (Raise e, s') => handler e s'
    end.

(** The first [try] block of [work]; [connected] is what [connect] does. *)
Definition work_connect (connected : result unit) : M unit :=
  (do fd <- socket_socket;
   set_fortress_socket (Some fd)) ;;
  (do s <- attr fortress_socket;
   sock s sock_connect ;;
   lift connected) ;;
  _send_to_socket HANDSHAKE ;;
  _send_to_socket BIND_ME ;;
  _set_all_good true ;;
  _reschedule_reconnect ;;
  (do t <- RepeatingTimer HEARTBEAT_INTERVAL _send_heartbeat_target;
   set_heartbeat_timer (Some t)) ;;
  do t <- attr heartbeat_timer;
  start t.

(** The [while self.all_good] loop of [work].  The socket of the loop is
    the one that connected, so the teardown of the interrupt handler is
    the one whose [shutdown] returns. *)
Fixpoint work_loop (inbound : list io) : M ending :=
  do g <- attr all_good;
  if g then
    match inbound with
    | [] => ret waiting
    | ev :: inbound' =>
        do again <-
          try_except
            (match ev with
             | select_timeout => ret false
             | recv data => _process_update data ;; ret true
             | io_raise e => raise e
             end)
            (fun e =>
               match e with
               | KeyboardInterrupt => _tear_down ;; raise SystemExit
               | SystemExit => ret false
               | _ => _reschedule_reconnect_asap ;; ret false
               end);
        if again then work_loop inbound' else ret returned
    end
  else ret returned.

Definition work (connected : result unit) (inbound : list io) : M ending :=
  do bound <-
    try_except
      (work_connect connected ;; ret true)
      (fun _ => _reschedule_reconnect_asap ;; ret false);
  if bound then work_loop inbound else ret returned.

(** [_reconnect]; [shut] is what [shutdown] does in its teardown. *)
Definition _reconnect_on (shut connected : result unit) (inbound : list io) :
    M ending :=
  _tear_down_on shut ;;
  work connected inbound.

(** [_reconnect] of a client whose held socket, if any, is connected. *)
Definition _reconnect (connected : result unit) (inbound : list io) :
    M ending :=
  _reconnect_on (Ret tt) connected inbound.

(** Final state and outcome of a method call. *)
Definition exec {A} (m : M A) (s : State) : State := snd (m s).
Definition outcome {A} (m : M A) (s : State) : result A := fst (m s).

(** A 182-byte frame that is zero except for the first byte of the status
    field, the zone byte and the alarm byte. *)
Definition status_frame (hi z flag : byte) : list byte :=
  replicate 10 x00 ++ [hi; x00; x00] ++ replicate 76 x00 ++ [z]
  ++ replicate 91 x00 ++ [flag].

(** A fresh client with all three handlers registered. *)
Definition fresh : State :=
  {| self := __init__ true true true; world := empty_world |}.

(** * Vocabulary of the statements *)

(** [sub] occurs in [data] at some position. *)
Definition contains (data sub : list byte) : Prop :=
  exists pre suf, data = pre ++ sub ++ suf.

(** What [_to_bin_char] makes of a byte value: the byte itself below
    [0x80], and the two bytes of its UTF-8 form from [0x80] on. *)
Definition utf8_of_byte (b : byte) : list byte :=
  if byte_to_Z b <? 0x80 then [b]
  else [Z_to_byte (Z.lor 0xC0 (Z.shiftr (byte_to_Z b) 6));
        Z_to_byte (Z.lor 0x80 (Z.land (byte_to_Z b) 0x3F))].

(** The timer list after [ref.cancel()], when [ref] is not [None]. *)
Definition cancel_ref (ref : option nat) (ts : list Timer) : list Timer :=
  match ref with
  | Some id => alter cancel_timer id ts
  | None => ts
  end.

(** The invocation [c], if a handler is registered. *)
Definition notify (registered : bool) (c : Call) : list Call :=
  if registered then [c] else [].

(** The timer that [_reschedule_reconnect] starts, and the one that
    [_reschedule_reconnect_asap] starts. *)
Definition liveness_timer : Timer :=
  mkTimer TIMEOUT_AFTER (_reconnect_target EmptyString) false true false.
Definition retry_timer : Timer :=
  mkTimer RETRY_AFTER_ERROR (_reconnect_target "...AFTER EXCEPTION")
    false true false.

(** The heartbeat timer that [work] starts. *)
Definition heartbeat_repeater : Timer :=
  mkTimer HEARTBEAT_INTERVAL _send_heartbeat_target true true false.

(** The socket calls of a teardown. *)
Definition close_ref (ref : option nat) : list sock_call :=
  match ref with
  | Some fd => [sock_shutdown fd; sock_close fd]
  | None => []
  end.

(** The three stages of [_process_update] on an expected buffer. *)
Definition after_ack (data : list byte) (s : State) : State :=
  if bool_decide (find data HEARTBEAT_ACK <> -1)
  then exec _reschedule_reconnect s else s.

Definition after_status (latest : list byte) (s : State) : State :=
  if bool_decide (Some latest <> arm_status (self s))
  then exec (_set_arm_status latest) s else s.

(** The guard in front of [_set_alarming]. *)
Definition alarm_guard (now : bool) (latest : list byte) (s : State) : bool :=
  bool_decide (Some now <> alarming (self s))
  && (negb (truthy_flag (alarming (self s)))
      || bool_decide (latest = DISARM)).

Definition after_alarm (now : bool) (latest z : list byte) (s : State) :
    State :=
  if alarm_guard now latest s
  then exec (_set_alarming (Some now) z) s else s.

(** The status bytes that a frame with byte [b] at offset 10 decodes to. *)
Definition status_code (b : byte) : list byte :=
  utf8_of_byte (Z_to_byte (Z.shiftl (byte_to_Z b / 16) 4)).

(** The alarm notifications in a list of handler invocations. *)
Definition alarm_calls (l : list Call) : list (option bool * Z) :=
  omap (fun c =>
          match c with
          | onAlarmChange_call a z => Some (a, z)
          | _ => None
          end) l.

(** From [s] to [s'] the alarm change to [now] was accepted and published
    with zone argument [z]. *)
Definition accepts (s s' : State) (now : bool) (z : Z) : Prop :=
  alarming (self s') = Some now /\
  alarm_calls (calls (world s')) =
  alarm_calls (calls (world s))
  ++ alarm_calls
       (notify (_onAlarmChange (self s)) (onAlarmChange_call (Some now) z)).

(** From [s] to [s'] the stored flag is unchanged and no alarm handler was
    invoked. *)
Definition ignores (s s' : State) : Prop :=
  alarming (self s') = alarming (self s) /\
  alarm_calls (calls (world s')) = alarm_calls (calls (world s)).

(** A client that is armed and quiet, and one that is armed and alarming;
    all handlers registered, nothing else has happened. *)
Definition armed_quiet : State :=
  {| self :=
       with_alarming (Some false)
         (with_arm_status (Some ARM) (__init__ true true true));
     world := empty_world |}.

Definition armed_alarming : State :=
  {| self :=
       with_alarming (Some true)
         (with_arm_status (Some ARM) (__init__ true true true));
     world := empty_world |}.

(** The guard as the specification words it: a change of the alarm flag
    is accepted exactly when the stored flag is true or the frame says
    Disarmed, and is ignored otherwise. *)
Definition guard_as_specified (data : list byte) (s : State) : Prop :=
  forall now latest z,
    now_alarming data = Ret now ->
    latest_arm_status data = Ret latest ->
    zone data = Ret z ->
    Some now <> alarming (self s) ->
    let s' := exec (_process_update data) s in
    (accepts s s' now (int_from_bytes z) <->
     alarming (self s) = Some true \/ latest = DISARM) /\
    (~ (alarming (self s) = Some true \/ latest = DISARM) -> ignores s s').

(** The invocations that running [m] from [s] adds. *)
Definition new_calls {A} (m : M A) (s : State) : list Call :=
  drop (length (calls (world s))) (calls (world (exec m s))).

(** The invocation [k] carries a value other than the one stored in [c]. *)
Definition changes (c : FortressConnection) (k : Call) : Prop :=
  match k with
  | onErrorChange_call g => g <> all_good c
  | onStatusChange_call v => v <> arm_status c
  | onAlarmChange_call a _ => a <> alarming c
  end.

(** Running [m] from [s] invokes handlers only with changed values. *)
Definition fires_on_change_only {A} (m : M A) (s : State) : Prop :=
  forall k, k ∈ new_calls m s -> changes (self s) k.

(** Teardown as the specification words it: a second run leaves the
    client as the first did and has no further effect on the outside. *)
Definition teardown_idempotent (s : State) : Prop :=
  let s1 := exec _tear_down s in
  let s2 := exec _tear_down s1 in
  self s2 = self s1 /\ world s2 = world s1.

(** ** Vocabulary of the further properties *)

(** The state after the buffers [ds] were processed one after the other. *)
Definition feed (ds : list (list byte)) (s : State) : State :=
  fold_left (fun s d => exec (_process_update d) s) ds s.

(** [s'] differs from [s] at most in the health, status, alarm and timer
    attributes, the timer objects and the handler invocations. *)
Definition same_link (s s' : State) : Prop :=
  fortress_socket (self s') = fortress_socket (self s) /\
  count (self s') = count (self s) /\
  _onStatusChange (self s') = _onStatusChange (self s) /\
  _onErrorChange (self s') = _onErrorChange (self s) /\
  _onAlarmChange (self s') = _onAlarmChange (self s) /\
  sockets (world s') = sockets (world s) /\
  wire (world s') = wire (world s).

(** The timers that were started and not cancelled are held by the
    client: each is the one [timeout_timer] or [heartbeat_timer] refers
    to. *)
Definition timers_owned (s : State) : Prop :=
  forall id t,
    timers (world s) !! id = Some t ->
    started t = true -> cancelled t = false ->
    timeout_timer (self s) = Some id \/ heartbeat_timer (self s) = Some id.


(** No timer is left running. *)
Definition no_timer_running (s : State) : Prop :=
  forall id t,
    timers (world s) !! id = Some t -> started t = true -> cancelled t = true.

(** A loop event that is a received buffer of an expected shape. *)
Definition expected_buffer (ev : io) : Prop :=
  exists data, ev = recv data /\ unexpected data = false.


(** * Properties *)

(** ** Bytes *)

Lemma byte_to_Z_range (b : byte) : 0 <= byte_to_Z b < 256.
Proof.
  unfold byte_to_Z. pose proof (Byte.to_N_bounded b). lia.
Qed.

Lemma Z_to_byte_to_Z (b : byte) : Z_to_byte (byte_to_Z b) = b.
Proof.
  unfold Z_to_byte, byte_to_Z. rewrite N2Z.id, Byte.of_to_N. reflexivity.
Qed.

Lemma len_length (data : list byte) (n : nat) :
  len data = Z.of_nat n <-> length data = n.
Proof. unfold len. lia. Qed.

(** ** Substring search *)

Lemma startswith_spec (data sub : list byte) :
  startswith data sub = true <-> exists suf, data = sub ++ suf.
Proof.
  revert data. induction sub as [|x sub IH]; intros data.
  - split; [intros _; exists data; reflexivity |].
    intros _. destruct data; reflexivity.
  - destruct data as [|y data]; simpl.
    + split; [discriminate | intros [suf H]; discriminate].
    + rewrite andb_true_iff, bool_decide_eq_true, IH. split.
      * intros [-> [suf ->]]. exists suf. reflexivity.
      * intros [suf H]. injection H as -> ->. eauto.
Qed.

Lemma find_from_lower (data sub : list byte) (i : Z) :
  find_from data sub i = -1 \/ i <= find_from data sub i.
Proof.
  revert i. induction data as [|y data IH]; intros i; cbn [find_from].
  - destruct (startswith [] sub); [right; lia | left; reflexivity].
  - destruct (startswith (y :: data) sub); [right; lia|].
    destruct (IH (i + 1)) as [H | H]; [left; exact H | right; lia].
Qed.

Lemma find_from_contains (data sub : list byte) (i : Z) :
  0 <= i -> find_from data sub i <> -1 <-> contains data sub.
Proof.
  revert i. induction data as [|y data IH]; intros i Hi.
  - cbn [find_from]. destruct (startswith [] sub) eqn:E.
    + split; [intros _|lia].
      apply startswith_spec in E as [suf E]. exists [], suf. exact E.
    + split; [congruence|]. intros (pre & suf & H).
      destruct pre; [|discriminate]. simpl in H.
      assert (startswith [] sub = true) by (apply startswith_spec; eauto).
      congruence.
  - cbn [find_from]. destruct (startswith (y :: data) sub) eqn:E.
    + split; [intros _|lia].
      apply startswith_spec in E as [suf E]. exists [], suf. exact E.
    + rewrite (IH (i + 1)) by lia. split.
      * intros (pre & suf & ->). exists (y :: pre), suf. reflexivity.
      * intros (pre & suf & H). destruct pre as [|p pre].
        -- assert (startswith (y :: data) sub = true)
             by (apply startswith_spec; eauto).
           congruence.
        -- injection H as _ ->. exists pre, suf. reflexivity.
Qed.

(** [find] answers [-1] exactly when the literal occurs nowhere. *)
Lemma find_contains (data sub : list byte) :
  find data sub <> -1 <-> contains data sub.
Proof. apply find_from_contains. lia. Qed.

(** ** The decoder *)

Lemma _to_bin_char_byte (b : byte) :
  _to_bin_char (byte_to_Z b) = Ret (utf8_of_byte b).
Proof. destruct b; reflexivity. Qed.

Lemma _to_bin_char_ALARMING (b : byte) :
  utf8_of_byte b = ALARMING <-> b = x01.
Proof. destruct b; vm_compute; split; congruence. Qed.

Lemma now_alarming_lookup (data : list byte) (b : byte) :
  data !! 181%nat = Some b ->
  now_alarming data = Ret (bool_decide (b = x01)).
Proof.
  intros H. unfold now_alarming, index. rewrite H. simpl.
  rewrite _to_bin_char_byte. simpl. f_equal.
  apply bool_decide_ext, _to_bin_char_ALARMING.
Qed.

Lemma zone_lookup (data : list byte) (b : byte) :
  data !! 89%nat = Some b -> zone data = Ret (utf8_of_byte b).
Proof.
  intros H. unfold zone, index. rewrite H. simpl. apply _to_bin_char_byte.
Qed.

(** The status field of a frame that holds [b10], [b11], [b12] at offsets
    10, 11 and 12. *)
Section StatusField.

Variables (data : list byte) (b10 b11 b12 : byte).
Hypothesis H10 : data !! 10%nat = Some b10.
Hypothesis H11 : data !! 11%nat = Some b11.
Hypothesis H12 : data !! 12%nat = Some b12.

Lemma slice_10_13 : slice data 10 13 = [b10; b11; b12].
Proof using H10 H11 H12.
  unfold slice.
  rewrite (drop_S _ _ _ H10), (drop_S _ _ _ H11), (drop_S _ _ _ H12).
  reflexivity.
Qed.

(** The three status bytes read as a 24-bit big-endian number. *)
Lemma status_and_outlets_lookup :
  status_and_outlets data
  = byte_to_Z b10 * 2 ^ 16 + byte_to_Z b11 * 2 ^ 8 + byte_to_Z b12.
Proof using H10 H11 H12.
  unfold status_and_outlets. rewrite slice_10_13.
  unfold int_from_bytes. simpl. lia.
Qed.

(** Its top four bits are the high nibble of the byte at offset 10. *)
Lemma status_and_outlets_top :
  Z.shiftr (status_and_outlets data) 20 = byte_to_Z b10 / 16.
Proof using H10 H11 H12.
  rewrite status_and_outlets_lookup.
  pose proof (byte_to_Z_range b10). pose proof (byte_to_Z_range b11).
  pose proof (byte_to_Z_range b12).
  rewrite Z.shiftr_div_pow2 by lia.
  change (2 ^ 20) with (2 ^ 16 * 16).
  rewrite <- Z.div_div by lia. f_equal.
  rewrite <- Z.add_assoc, Z.add_comm, Z.div_add by lia.
  rewrite Z.div_small by lia. reflexivity.
Qed.

End StatusField.

Lemma lookup_in_frame (data : list byte) (i : nat) :
  length data = 182%nat -> (i < 182)%nat -> exists b, data !! i = Some b.
Proof.
  intros H Hi. destruct (lookup_lt_is_Some_2 data i) as [b Hb]; [lia|].
  eauto.
Qed.

(** ** What each method does to the state *)

Ltac run :=
  unfold _tear_down, _tear_down_on, _reschedule_reconnect_asap,
    _reschedule_reconnect,
    _clear_timers, _set_all_good, _set_alarming, _set_arm_status,
    _send_heartbeat, sendCommand, _send_to_socket,
    set_timeout_timer, set_fortress_socket, set_arm_status, set_alarming,
    set_heartbeat_timer, set_all_good, set_count,
    threading_Timer, RepeatingTimer, new_timer, start, cancel, sock, on_wire,
    invoke, socket_socket, bind, when, attr, update, effect, ret, raise, lift,
    exec, outcome,
    with_timeout_timer, with_fortress_socket, with_arm_status, with_alarming,
    with_heartbeat_timer, with_all_good, with_count,
    with_timers, with_sockets, with_wire, with_calls;
  cbn.

Ltac open_state s :=
  destruct s as [[tmo fs st al ht ag ct cs ce ca] [ts sk wr cl]].

Lemma alter_new {A} (f : A -> A) (l : list A) (x : A) (n : nat) :
  n = length l -> alter f n (l ++ [x]) = l ++ [f x].
Proof.
  intros ->. induction l as [|a l IH]; cbn; [reflexivity|].
  f_equal. exact IH.
Qed.

Lemma length_cancel_ref (ref : option nat) (ts : list Timer) :
  length (cancel_ref ref ts) = length ts.
Proof. destruct ref; cbn; [apply length_alter | reflexivity]. Qed.

Lemma run_pair {A} (m : M A) (s : State) : m s = (outcome m s, exec m s).
Proof. unfold outcome, exec. destruct (m s); reflexivity. Qed.

Lemma exec_run {A} (m : M A) (s s' : State) (a : A) :
  m s = (Ret a, s') -> exec m s = s'.
Proof. intros H. unfold exec. rewrite H. reflexivity. Qed.

Lemma _set_all_good_run (isGood : bool) (s : State) :
  _set_all_good isGood s =
  (Ret tt,
   {| self := with_all_good isGood (self s);
      world :=
        with_calls
          (fun l =>
             l ++ notify (_onErrorChange (self s)) (onErrorChange_call isGood))
          (world s) |}).
Proof.
  open_state s. destruct ce; run; rewrite ?app_nil_r; reflexivity.
Qed.

Lemma _set_arm_status_run (cur : list byte) (s : State) :
  _set_arm_status cur s =
  (Ret tt,
   {| self := with_arm_status (Some cur) (self s);
      world :=
        with_calls
          (fun l =>
             l ++ notify (_onStatusChange (self s))
                    (onStatusChange_call (Some cur)))
          (world s) |}).
Proof.
  open_state s. destruct cs; run; rewrite ?app_nil_r; reflexivity.
Qed.

Lemma _set_alarming_run (cur : option bool) (z : list byte) (s : State) :
  _set_alarming cur z s =
  (Ret tt,
   {| self := with_alarming cur (self s);
      world :=
        with_calls
          (fun l =>
             l ++ notify (_onAlarmChange (self s))
                    (onAlarmChange_call cur (int_from_bytes z)))
          (world s) |}).
Proof.
  open_state s. destruct ca; run; rewrite ?app_nil_r; reflexivity.
Qed.

Lemma _clear_timers_run (s : State) :
  _clear_timers s =
  (Ret tt,
   {| self := with_heartbeat_timer None (with_timeout_timer None (self s));
      world :=
        with_timers
          (fun l =>
             cancel_ref (heartbeat_timer (self s))
               (cancel_ref (timeout_timer (self s)) l))
          (world s) |}).
Proof.
  open_state s. destruct tmo, ht; run; reflexivity.
Qed.

Lemma _reschedule_reconnect_run (s : State) :
  _reschedule_reconnect s =
  (Ret tt,
   {| self :=
        with_timeout_timer (Some (length (timers (world s)))) (self s);
      world :=
        with_timers
          (fun l => cancel_ref (timeout_timer (self s)) l ++ [liveness_timer])
          (world s) |}).
Proof.
  open_state s. destruct tmo; run;
    rewrite ?length_alter, alter_new by (rewrite ?length_alter; reflexivity);
    reflexivity.
Qed.

Lemma _reschedule_reconnect_asap_run (s : State) :
  _reschedule_reconnect_asap s =
  (Ret tt,
   {| self :=
        with_timeout_timer (Some (length (timers (world s))))
          (with_heartbeat_timer None (with_all_good false (self s)));
      world :=
        with_calls
          (fun l =>
             l ++ notify (_onErrorChange (self s)) (onErrorChange_call false))
          (with_timers
             (fun l =>
                cancel_ref (heartbeat_timer (self s))
                  (cancel_ref (timeout_timer (self s)) l)
                ++ [retry_timer])
             (world s)) |}).
Proof.
  open_state s. destruct tmo, ht, ce; run;
    rewrite ?length_alter, alter_new by (rewrite ?length_alter; reflexivity);
    rewrite ?app_nil_r; reflexivity.
Qed.

Lemma _tear_down_run (s : State) :
  _tear_down s =
  (Ret tt,
   {| self :=
        mkFortressConnection None None None None None false 0
          (_onStatusChange (self s)) (_onErrorChange (self s))
          (_onAlarmChange (self s));
      world :=
        mkWorld
          (cancel_ref (heartbeat_timer (self s))
             (cancel_ref (timeout_timer (self s)) (timers (world s))))
          (sockets (world s))
          (wire (world s) ++ close_ref (fortress_socket (self s)))
          (calls (world s)
           ++ notify (_onErrorChange (self s)) (onErrorChange_call false)
           ++ notify (_onAlarmChange (self s)) (onAlarmChange_call None 0)) |}).
Proof.
  open_state s. destruct tmo, ht, fs, ce, ca; run;
    rewrite <- ?app_assoc, ?app_nil_r; reflexivity.
Qed.

(** A teardown in which [shutdown] is not called or returns is the
    teardown of a connected client. *)
Lemma _tear_down_on_completes (shut : result unit) (s : State) :
  fortress_socket (self s) = None \/ shut = Ret tt ->
  _tear_down_on shut s = _tear_down s.
Proof.
  intros [H | ->]; [|reflexivity].
  open_state s. cbn in H. subst fs.
  destruct shut; [reflexivity|]. destruct ce, ca, tmo, ht; run; reflexivity.
Qed.

(** A teardown in which [shutdown] raises stops there. *)
Lemma _tear_down_on_raises (e : exn) (s : State) (fd : nat) :
  fortress_socket (self s) = Some fd ->
  _tear_down_on (Raise e) s =
  (Raise e,
   {| self :=
        with_alarming None
          (with_arm_status None (with_count 0 (with_all_good false (self s))));
      world :=
        with_wire (fun l => l ++ [sock_shutdown fd])
          (with_calls
             (fun l =>
                l ++ notify (_onErrorChange (self s)) (onErrorChange_call false)
                  ++ notify (_onAlarmChange (self s))
                       (onAlarmChange_call None 0))
             (world s)) |}).
Proof.
  intros H. open_state s. cbn in H. subst fs.
  destruct ce, ca; run; rewrite <- ?app_assoc, ?app_nil_r; reflexivity.
Qed.

Lemma _tear_down_on_outcome (shut : result unit) (s : State) :
  outcome (_tear_down_on shut) s = Ret tt <->
  fortress_socket (self s) = None \/ shut = Ret tt.
Proof.
  split.
  - intros H. destruct (fortress_socket (self s)) as [fd|] eqn:Hfd; [|auto].
    destruct shut as [[]|e]; [auto|].
    unfold outcome in H. rewrite (_tear_down_on_raises e s fd Hfd) in H.
    discriminate H.
  - intros H. unfold outcome. rewrite (_tear_down_on_completes shut s H).
    rewrite _tear_down_run. reflexivity.
Qed.

Lemma _reconnect_on_completes (shut connected : result unit)
    (inbound : list io) (s : State) :
  fortress_socket (self s) = None \/ shut = Ret tt ->
  _reconnect_on shut connected inbound s = _reconnect connected inbound s.
Proof.
  intros H. unfold _reconnect, _reconnect_on, bind.
  rewrite (_tear_down_on_completes shut s H). reflexivity.
Qed.

(** A successful connect: a new socket, the handshake and the bind
    request on the wire, health true, the liveness timer re-armed and the
    heartbeat timer started. *)
Lemma work_connect_run (s : State) :
  work_connect (Ret tt) s =
  (Ret tt,
   {| self :=
        mkFortressConnection
          (Some (length (timers (world s))))
          (Some (sockets (world s)))
          (arm_status (self s)) (alarming (self s))
          (Some (S (length (timers (world s)))))
          true (count (self s))
          (_onStatusChange (self s)) (_onErrorChange (self s))
          (_onAlarmChange (self s));
      world :=
        mkWorld
          (cancel_ref (timeout_timer (self s)) (timers (world s))
           ++ [liveness_timer; heartbeat_repeater])
          (S (sockets (world s)))
          (wire (world s)
           ++ [sock_connect (sockets (world s));
               sock_send (sockets (world s)) HANDSHAKE;
               sock_send (sockets (world s)) BIND_ME])
          (calls (world s)
           ++ notify (_onErrorChange (self s)) (onErrorChange_call true)) |}).
Proof.
  open_state s. destruct tmo, ce; unfold work_connect; run.
  all: rewrite ?length_alter, ?length_app, ?length_alter; cbn [length].
  all: rewrite ?Nat.add_1_r.
  all: rewrite (alter_new start_timer _ _ (length ts))
         by (rewrite ?length_alter; reflexivity).
  all: rewrite (alter_new start_timer _ _ (S (length ts)))
         by (rewrite ?length_app, ?length_alter; cbn; lia).
  all: rewrite <- ?app_assoc, ?app_nil_r; reflexivity.
Qed.

Lemma cancel_ref_lookup (ref : option nat) (ts : list Timer) (id : nat)
    (t : Timer) :
  ref = Some id -> ts !! id = Some t ->
  cancel_ref ref ts !! id = Some (cancel_timer t).
Proof.
  intros -> H. cbn. rewrite list_lookup_alter_eq, H. reflexivity.
Qed.

Lemma cancel_ref_lookup_other (ref : option nat) (ts : list Timer) (id : nat) :
  ref <> Some id -> cancel_ref ref ts !! id = ts !! id.
Proof.
  intros H. destruct ref as [r|]; cbn; [|reflexivity].
  apply list_lookup_alter_ne. congruence.
Qed.

(** A timer that either attribute refers to is cancelled by cancelling
    both. *)
Lemma cancel_both_lookup (r1 r2 : option nat) (ts : list Timer) (id : nat)
    (t : Timer) :
  r1 = Some id \/ r2 = Some id -> ts !! id = Some t ->
  cancel_ref r2 (cancel_ref r1 ts) !! id = Some (cancel_timer t).
Proof.
  intros H Ht.
  destruct (decide (r1 = Some id)) as [E1|N1],
           (decide (r2 = Some id)) as [E2|N2].
  - rewrite (cancel_ref_lookup r2 _ id (cancel_timer t) E2); [reflexivity|].
    apply cancel_ref_lookup; assumption.
  - rewrite cancel_ref_lookup_other by exact N2.
    apply cancel_ref_lookup; assumption.
  - apply cancel_ref_lookup; [exact E2|].
    rewrite cancel_ref_lookup_other by exact N1. exact Ht.
  - tauto.
Qed.

Lemma lookup_new {A} (l : list A) (x : A) :
  (l ++ [x]) !! length l = Some x.
Proof. apply list_lookup_middle. reflexivity. Qed.

(** ** Validation of a received buffer *)

Lemma unexpected_spec (data : list byte) :
  unexpected data = true <->
  len data <> 182 /\ len data <> 8 /\ data <> CONNECTION_IS_BOUND.
Proof.
  unfold unexpected.
  rewrite orb_true_iff, !andb_true_iff, !bool_decide_eq_true. split.
  - intros [H | [[H1 H2] H3]]; [|tauto].
    destruct data; [|discriminate]. cbn. repeat split; discriminate.
  - intros (H1 & H2 & H3). right. tauto.
Qed.

Lemma unexpected_false (data : list byte) :
  unexpected data = false <->
  len data = 182 \/ len data = 8 \/ data = CONNECTION_IS_BOUND.
Proof.
  rewrite <- not_true_iff_false, unexpected_spec.
  destruct (decide (len data = 182)), (decide (len data = 8)),
    (decide (data = CONNECTION_IS_BOUND)); tauto.
Qed.

Lemma _process_update_unexpected (data : list byte) (s : State) :
  unexpected data = true ->
  _process_update data s = _reschedule_reconnect_asap s.
Proof. intros H. unfold _process_update. rewrite H. reflexivity. Qed.

(** ** Processing a status frame *)

Lemma _reschedule_reconnect_ret (s : State) :
  _reschedule_reconnect s = (Ret tt, exec _reschedule_reconnect s).
Proof. unfold exec. rewrite _reschedule_reconnect_run. reflexivity. Qed.

Lemma _set_arm_status_ret (cur : list byte) (s : State) :
  _set_arm_status cur s = (Ret tt, exec (_set_arm_status cur) s).
Proof. unfold exec. rewrite _set_arm_status_run. reflexivity. Qed.

Lemma _set_alarming_ret (cur : option bool) (z : list byte) (s : State) :
  _set_alarming cur z s = (Ret tt, exec (_set_alarming cur z) s).
Proof. unfold exec. rewrite _set_alarming_run. reflexivity. Qed.

Lemma _process_update_expected (data : list byte) (s : State) :
  unexpected data = false -> len data <> 182 ->
  _process_update data s = (Ret tt, after_ack data s).
Proof.
  intros H Hlen. unfold _process_update, after_ack. rewrite H.
  unfold bind, when, ret.
  rewrite (bool_decide_eq_false_2 (len data = 182)) by exact Hlen.
  destruct (bool_decide (find data HEARTBEAT_ACK <> -1));
    [rewrite _reschedule_reconnect_ret|]; reflexivity.
Qed.

Lemma _process_update_status (data : list byte) (s : State) (now : bool)
    (latest z : list byte) :
  length data = 182%nat ->
  now_alarming data = Ret now ->
  latest_arm_status data = Ret latest ->
  zone data = Ret z ->
  _process_update data s =
  (Ret tt, after_alarm now latest z (after_status latest (after_ack data s))).
Proof.
  intros Hlen Hnow Hlatest Hz.
  assert (Hl : len data = 182) by (apply (len_length data 182); exact Hlen).
  assert (Hu : unexpected data = false) by (apply unexpected_false; tauto).
  unfold _process_update. rewrite Hu, Hnow, Hlatest, Hz.
  rewrite (bool_decide_eq_true_2 (len data = 182)) by exact Hl.
  unfold after_alarm, after_status, after_ack, alarm_guard.
  unfold bind, when, lift, attr, ret.
  destruct (bool_decide (find data HEARTBEAT_ACK <> -1));
    [rewrite _reschedule_reconnect_ret|]; cbv beta iota.
  all: destruct (bool_decide (Some latest <> arm_status _));
    [rewrite _set_arm_status_ret|]; cbv beta iota.
  all: destruct (bool_decide (Some now <> alarming _)); cbn [andb];
    [|reflexivity].
  all: destruct (negb _ || bool_decide (latest = DISARM)); [|reflexivity].
  all: rewrite _set_alarming_ret; reflexivity.
Qed.

Lemma _to_bin_char_nibble (b : byte) :
  _to_bin_char (Z.shiftl (byte_to_Z b / 16) 4) = Ret (status_code b).
Proof. destruct b; reflexivity. Qed.

(** On a 182-byte frame none of the decoding steps raises. *)
Lemma decode_frame (data : list byte) :
  length data = 182%nat ->
  exists b10 b11 b12 b89 b181,
    data !! 10%nat = Some b10 /\ data !! 11%nat = Some b11 /\
    data !! 12%nat = Some b12 /\ data !! 89%nat = Some b89 /\
    data !! 181%nat = Some b181 /\
    now_alarming data = Ret (bool_decide (b181 = x01)) /\
    latest_arm_status data = Ret (status_code b10) /\
    zone data = Ret (utf8_of_byte b89).
Proof.
  intros Hlen.
  destruct (lookup_in_frame data 10 Hlen) as [b10 H10]; [lia|].
  destruct (lookup_in_frame data 11 Hlen) as [b11 H11]; [lia|].
  destruct (lookup_in_frame data 12 Hlen) as [b12 H12]; [lia|].
  destruct (lookup_in_frame data 89 Hlen) as [b89 H89]; [lia|].
  destruct (lookup_in_frame data 181 Hlen) as [b181 H181]; [lia|].
  exists b10, b11, b12, b89, b181. repeat split; try assumption.
  - apply now_alarming_lookup, H181.
  - unfold latest_arm_status.
    rewrite (status_and_outlets_top _ _ _ _ H10 H11 H12).
    apply _to_bin_char_nibble.
  - apply zone_lookup, H89.
Qed.

(** [_process_update] never raises. *)
Lemma _process_update_returns (data : list byte) (s : State) :
  outcome (_process_update data) s = Ret tt.
Proof.
  unfold outcome. destruct (unexpected data) eqn:Hu.
  - rewrite (_process_update_unexpected data s Hu).
    rewrite _reschedule_reconnect_asap_run. reflexivity.
  - destruct (decide (len data = 182)) as [Hl|Hl].
    + apply (len_length data 182) in Hl.
      destruct (decode_frame data Hl)
        as (b10 & b11 & b12 & b89 & b181 & _ & _ & _ & _ & _ & Hn & Hs & Hz).
      rewrite (_process_update_status data s _ _ _ Hl Hn Hs Hz). reflexivity.
    + rewrite (_process_update_expected data s Hu Hl). reflexivity.
Qed.

(** ** The alarm guard *)

Lemma alarm_calls_app (l1 l2 : list Call) :
  alarm_calls (l1 ++ l2) = alarm_calls l1 ++ alarm_calls l2.
Proof. apply omap_app. Qed.

Lemma alarm_guard_spec (now : bool) (latest : list byte) (s : State) :
  alarm_guard now latest s = true <->
  Some now <> alarming (self s) /\
  (alarming (self s) <> Some true \/ latest = DISARM).
Proof.
  unfold alarm_guard.
  rewrite andb_true_iff, orb_true_iff, !bool_decide_eq_true, negb_true_iff.
  destruct (alarming (self s)) as [[|]|]; cbn; intuition congruence.
Qed.

(** The first two stages leave the alarm flag and the alarm handler
    alone. *)
Lemma before_alarm (data latest : list byte) (s : State) :
  let s2 := after_status latest (after_ack data s) in
  alarming (self s2) = alarming (self s) /\
  _onAlarmChange (self s2) = _onAlarmChange (self s) /\
  alarm_calls (calls (world s2)) = alarm_calls (calls (world s)).
Proof.
  unfold after_status, after_ack.
  destruct (bool_decide (find data HEARTBEAT_ACK <> -1));
    [rewrite (exec_run _ _ _ _ (_reschedule_reconnect_run s))|].
  all: match goal with
       | |- context [bool_decide ?P] => destruct (bool_decide P)
       end;
    [rewrite (exec_run _ _ _ _ (_set_arm_status_run _ _))|].
  all: cbn; rewrite ?alarm_calls_app.
  all: destruct (_onStatusChange (self s)); cbn; rewrite ?app_nil_r; auto.
Qed.

(** What the last stage does, by the value of the guard. *)
Lemma after_alarm_cases (now : bool) (latest z : list byte) (s : State) :
  let s' := after_alarm now latest z s in
  (alarm_guard now latest s = true -> accepts s s' now (int_from_bytes z)) /\
  (alarm_guard now latest s = false -> s' = s).
Proof.
  unfold after_alarm. destruct (alarm_guard now latest s); split;
    try discriminate; try reflexivity.
  intros _. unfold accepts.
  rewrite (exec_run _ _ _ _ (_set_alarming_run _ _ _)). cbn.
  rewrite alarm_calls_app. auto.
Qed.

(** The alarm part of processing a 182-byte frame: with the decoded
    values [now], [latest] and [z], the change is accepted when the guard
    holds and ignored when it does not. *)
Lemma _process_update_alarm (data : list byte) (s : State) (now : bool)
    (latest z : list byte) :
  length data = 182%nat ->
  now_alarming data = Ret now ->
  latest_arm_status data = Ret latest ->
  zone data = Ret z ->
  let s' := exec (_process_update data) s in
  (Some now <> alarming (self s) /\
   (alarming (self s) <> Some true \/ latest = DISARM) ->
   accepts s s' now (int_from_bytes z)) /\
  (~ (Some now <> alarming (self s) /\
      (alarming (self s) <> Some true \/ latest = DISARM)) ->
   ignores s s').
Proof.
  intros Hlen Hnow Hlatest Hz. unfold exec.
  rewrite (_process_update_status data s now latest z) by assumption.
  cbn [snd].
  destruct (before_alarm data latest s) as (Ha & Hcb & Hc).
  set (s2 := after_status latest (after_ack data s)) in *.
  destruct (after_alarm_cases now latest z s2) as [Hacc Hign].
  pose proof (alarm_guard_spec now latest s2) as G. rewrite Ha in G.
  split.
  - intros Hg. apply G in Hg. specialize (Hacc Hg).
    unfold accepts in *. rewrite <- Hc, <- Hcb. exact Hacc.
  - intros Hg. rewrite <- G in Hg. apply not_true_is_false in Hg.
    rewrite (Hign Hg). unfold ignores. auto.
Qed.

(** C1, as stated, fails: with the stored flag false, a frame that says
    Armed and alarming is accepted, although the stored flag is not true
    and the frame does not say Disarmed. *)
Lemma guard_as_specified_fails :
  ~ guard_as_specified (status_frame x00 x05 x01) armed_quiet.
Proof.
  intros H.
  destruct (H true ARM [x05] eq_refl eq_refl eq_refl) as [[Hacc _] _].
  - discriminate.
  - destruct Hacc as [Habs | Habs]; [| discriminate | discriminate].
    split; reflexivity.
Qed.

(** C1, amended: for a 182-byte frame whose decoded alarm flag differs
    from the stored one, the change is accepted and published exactly when
    the stored flag is not true (false or not yet set) or the status
    decoded from the same frame is Disarmed; otherwise the stored flag is
    unchanged and no alarm handler is invoked. *)
Theorem alarm_change_guard (data : list byte) (s : State) :
  length data = 182%nat ->
  exists now latest z,
    now_alarming data = Ret now /\
    latest_arm_status data = Ret latest /\
    zone data = Ret z /\
    let s' := exec (_process_update data) s in
    (Some now <> alarming (self s) ->
     (accepts s s' now (int_from_bytes z) <->
      alarming (self s) <> Some true \/ latest = DISARM) /\
     (~ (alarming (self s) <> Some true \/ latest = DISARM) ->
      ignores s s')).
Proof.
  intros Hlen.
  destruct (decode_frame data Hlen)
    as (b10 & b11 & b12 & b89 & b181 & _ & _ & _ & _ & _ & Hn & Hl & Hz).
  eexists _, _, _. repeat (split; [eassumption|]).
  intros s' Hdiff.
  destruct (_process_update_alarm data s _ _ _ Hlen Hn Hl Hz)
    as [Hacc Hign]. fold s' in Hacc, Hign.
  split; [split|].
  - intros [Ha _].
    destruct (decide (alarming (self s) <> Some true
                      \/ status_code b10 = DISARM)) as [G|G]; [exact G|].
    destruct Hign as [Hsame _]; [tauto|]. congruence.
  - intros G. apply Hacc. tauto.
  - intros G. apply Hign. tauto.
Qed.

Lemma alarm_change_guard_witness :
  length (status_frame x00 x05 x01) = 182%nat /\
  alarming
    (self (exec (_process_update (status_frame x00 x05 x01)) armed_quiet))
  = Some true.
Proof.
  split; [reflexivity|].
  destruct (alarm_change_guard (status_frame x00 x05 x01) armed_quiet
              eq_refl)
    as (now & latest & z & Hn & Hl & Hz & H).
  injection Hn as <-.
  destruct H as [[_ H] _]; [discriminate|].
  destruct H as [H _]; [left; discriminate | exact H].
Defined.

Lemma status_code_DISARM (b : byte) :
  status_code b = DISARM <-> byte_to_Z b / 16 = 1.
Proof. destruct b; vm_compute; split; congruence. Qed.

(** C2: with the flag stored false and the status stored Armed, a
    182-byte frame whose alarm byte is not [0x01] invokes no alarm
    handler, and one whose alarm byte is [0x01] stores true and invokes
    the handler with true and the zone number [z]; with the flag stored
    true, a frame that says not alarming is accepted exactly when the
    high nibble of its status byte is 1 (Disarmed), and is otherwise
    ignored, the stored flag staying true.  The zone number [z] is the
    byte at offset 89 when that byte is below [0x80]; from [0x80] on it
    is the number spelled by the two UTF-8 bytes of that value, which is
    never the byte value. *)
Theorem alarm_scenarios (data : list byte) (s : State) :
  length data = 182%nat ->
  exists b10 b89 b181,
    data !! 10%nat = Some b10 /\ data !! 89%nat = Some b89 /\
    data !! 181%nat = Some b181 /\
    let now := bool_decide (b181 = x01) in
    let disarmed := byte_to_Z b10 / 16 = 1 in
    let z :=
      if byte_to_Z b89 <? 0x80 then byte_to_Z b89
      else (0xC0 + byte_to_Z b89 / 64) * 256 + 0x80 + byte_to_Z b89 mod 64 in
    let s' := exec (_process_update data) s in
    (z = byte_to_Z b89 <-> byte_to_Z b89 < 0x80) /\
    (alarming (self s) = Some false -> arm_status (self s) = Some ARM ->
     (now = false -> ignores s s') /\
     (now = true -> accepts s s' true z)) /\
    (alarming (self s) = Some true -> now = false ->
     (accepts s s' false z <-> disarmed) /\
     (~ disarmed -> ignores s s' /\ alarming (self s') = Some true)).
Proof.
  intros Hlen.
  destruct (decode_frame data Hlen)
    as (b10 & b11 & b12 & b89 & b181 & H10 & _ & _ & H89 & H181 & Hn & Hl & Hz).
  exists b10, b89, b181. repeat (split; [assumption|]).
  intros now disarmed z s'.
  destruct (_process_update_alarm data s _ _ _ Hlen Hn Hl Hz)
    as [Hacc Hign]. fold s' now in Hacc, Hign.
  assert (Hzone : int_from_bytes (utf8_of_byte b89) = z)
    by (subst z; destruct b89; reflexivity).
  rewrite Hzone in Hacc.
  assert (Hdis : status_code b10 = DISARM <-> disarmed)
    by apply status_code_DISARM.
  split; [|split].
  - subst z. destruct b89; vm_compute; split; congruence.
  - intros Hal _. rewrite Hal in Hacc, Hign. split; intros Hnow.
    + apply Hign. rewrite Hnow. tauto.
    + rewrite Hnow in Hacc. apply Hacc. split; [|left]; discriminate.
  - intros Hal Hnow. rewrite Hal, Hnow in Hacc, Hign.
    assert (Hno : ~ disarmed -> ignores s s').
    { intros Hne. apply Hign. intros [_ [G|G]].
      - apply G. reflexivity.
      - apply Hne, Hdis, G. }
    split; [split|].
    + intros [Ha _].
      destruct (decide (status_code b10 = DISARM)) as [G|G];
        [apply Hdis, G|].
      destruct Hno as [Hsame _]; [rewrite <- Hdis; exact G|]. congruence.
    + intros G. apply Hacc. split; [discriminate | right; apply Hdis, G].
    + intros G. split; [exact (Hno G)|].
      destruct (Hno G) as [Hsame _]. congruence.
Qed.

Lemma alarm_scenarios_witness :
  length (status_frame x00 xff x01) = 182%nat /\
  status_frame x00 xff x01 !! 89%nat = Some xff /\
  byte_to_Z xff = 255 /\
  accepts armed_quiet
    (exec (_process_update (status_frame x00 xff x01)) armed_quiet)
    true 50111.
Proof.
  split; [reflexivity|]. split; [reflexivity|]. split; [reflexivity|].
  destruct (alarm_scenarios (status_frame x00 xff x01) armed_quiet eq_refl)
    as (b10 & b89 & b181 & H10 & H89 & H181 & H).
  injection H10 as <-. injection H89 as <-. injection H181 as <-.
  destruct H as (_ & H & _).
  destruct H as [_ H]; [reflexivity | reflexivity |].
  apply H. reflexivity.
Defined.

(** ** The arm status *)

Lemma after_alarm_arm_status (now : bool) (latest z : list byte) (s : State) :
  arm_status (self (after_alarm now latest z s)) = arm_status (self s).
Proof.
  unfold after_alarm. destruct (alarm_guard now latest s); [|reflexivity].
  rewrite (exec_run _ _ _ _ (_set_alarming_run _ _ _)). reflexivity.
Qed.

Lemma after_status_arm_status (latest : list byte) (s : State) :
  arm_status (self (after_status latest s)) = Some latest.
Proof.
  unfold after_status.
  destruct (bool_decide (Some latest <> arm_status (self s))) eqn:E.
  - rewrite (exec_run _ _ _ _ (_set_arm_status_run _ _)). reflexivity.
  - apply bool_decide_eq_false in E.
    destruct (decide (Some latest = arm_status (self s))); [auto|tauto].
Qed.

(** After a 182-byte frame the stored status is the decoded one. *)
Lemma _process_update_stores_status (data : list byte) (s : State)
    (latest : list byte) :
  length data = 182%nat ->
  latest_arm_status data = Ret latest ->
  arm_status (self (exec (_process_update data) s)) = Some latest.
Proof.
  intros Hlen Hlatest.
  destruct (decode_frame data Hlen)
    as (b10 & b11 & b12 & b89 & b181 & _ & _ & _ & _ & _ & Hn & _ & Hz).
  rewrite (exec_run _ _ _ _
             (_process_update_status data s _ _ _ Hlen Hn Hlatest Hz)).
  rewrite after_alarm_arm_status. apply after_status_arm_status.
Qed.

Lemma status_code_nibble (b : byte) (n : Z) (code : list byte) :
  (n = 0 /\ code = ARM) \/ (n = 1 /\ code = DISARM)
  \/ (n = 2 /\ code = STAY_ARM) ->
  byte_to_Z b / 16 = n ->
  status_code b = code /\ code = [Z_to_byte (Z.shiftl n 4)].
Proof.
  intros [[-> ->] | [[-> ->] | [-> ->]]] H.
  all: split; [|reflexivity].
  all: destruct b; vm_compute in H; try discriminate H; reflexivity.
Qed.

(** C3: in a 182-byte frame the bytes at offsets 10 to 12 are read as a
    24-bit big-endian number; when that number shifted right by 20 is 0, 1
    or 2, the decoded and stored status is Armed, Disarmed or StayArmed
    respectively, which is the one-byte command code obtained by shifting
    the value left by 4 (0x00, 0x10, 0x20).  In particular the status
    bytes 10 00 00, 00 00 00 and 20 00 00 give Disarmed, Armed and
    StayArmed. *)
Theorem arm_status_decoding (data : list byte) (s : State) :
  length data = 182%nat ->
  exists b10 b11 b12,
    data !! 10%nat = Some b10 /\ data !! 11%nat = Some b11 /\
    data !! 12%nat = Some b12 /\
    status_and_outlets data
    = byte_to_Z b10 * 2 ^ 16 + byte_to_Z b11 * 2 ^ 8 + byte_to_Z b12 /\
    (forall n code,
       (n = 0 /\ code = ARM) \/ (n = 1 /\ code = DISARM)
       \/ (n = 2 /\ code = STAY_ARM) ->
       Z.shiftr (status_and_outlets data) 20 = n ->
       latest_arm_status data = Ret code /\
       code = [Z_to_byte (Z.shiftl n 4)] /\
       arm_status (self (exec (_process_update data) s)) = Some code) /\
    (slice data 10 13 = [x10; x00; x00] ->
     arm_status (self (exec (_process_update data) s)) = Some DISARM) /\
    (slice data 10 13 = [x00; x00; x00] ->
     arm_status (self (exec (_process_update data) s)) = Some ARM) /\
    (slice data 10 13 = [x20; x00; x00] ->
     arm_status (self (exec (_process_update data) s)) = Some STAY_ARM).
Proof.
  intros Hlen.
  destruct (decode_frame data Hlen)
    as (b10 & b11 & b12 & b89 & b181 & H10 & H11 & H12 & _ & _ & _ & Hl & _).
  exists b10, b11, b12. repeat (split; [assumption|]).
  split; [apply status_and_outlets_lookup; assumption|].
  pose proof (status_and_outlets_top _ _ _ _ H10 H11 H12) as Htop.
  pose proof (slice_10_13 _ _ _ _ H10 H11 H12) as Hslice.
  pose proof (_process_update_stores_status data s _ Hlen Hl) as Hst.
  split; [|rewrite Hslice, Hst; repeat split; intros [= -> _ _]; reflexivity].
  intros n code Hcases Hn. rewrite Htop in Hn.
  destruct (status_code_nibble b10 n code Hcases Hn) as [Hc Hcode].
  rewrite Hst, Hl, Hc. auto.
Qed.

Lemma arm_status_decoding_witness :
  length (status_frame x10 x05 x00) = 182%nat /\
  arm_status (self (exec (_process_update (status_frame x10 x05 x00)) fresh))
  = Some DISARM.
Proof.
  split; [reflexivity|].
  destruct (arm_status_decoding (status_frame x10 x05 x00) fresh eq_refl)
    as (b10 & b11 & b12 & _ & _ & _ & _ & _ & H & _).
  apply H. reflexivity.
Defined.

(** ** The zone argument *)

(** The number that [_set_alarming] recovers from the zone bytes: the byte
    value below [0x80], and the 16-bit number spelled by its two UTF-8
    bytes from [0x80] on. *)
Lemma zone_number (b : byte) :
  int_from_bytes (utf8_of_byte b)
  = if byte_to_Z b <? 0x80 then byte_to_Z b
    else (0xC0 + byte_to_Z b / 64) * 256 + 0x80 + byte_to_Z b mod 64.
Proof. destruct b; reflexivity. Qed.

(** For a zone byte below [0x80] the handler gets the byte value. *)
Lemma zone_argument_low (data : list byte) (s : State) (b : byte)
    (now : bool) :
  length data = 182%nat ->
  data !! 89%nat = Some b ->
  byte_to_Z b < 0x80 ->
  now_alarming data = Ret now ->
  Some now <> alarming (self s) ->
  alarming (self s) <> Some true ->
  accepts s (exec (_process_update data) s) now (byte_to_Z b).
Proof.
  intros Hlen Hb Hlow Hn Hdiff Hguard.
  destruct (decode_frame data Hlen)
    as (b10 & b11 & b12 & b89 & b181 & _ & _ & _ & H89 & _ & _ & Hl & Hz).
  assert (b89 = b) as -> by congruence.
  destruct (_process_update_alarm data s _ _ _ Hlen Hn Hl Hz) as [Hacc _].
  rewrite zone_number in Hacc.
  apply Z.ltb_lt in Hlow. rewrite Hlow in Hacc. apply Hacc. tauto.
Qed.

(** C4 at the zone byte [0x80]: the alarm change is accepted, and the
    handler is invoked with zone 49792 (the UTF-8 bytes C2 80 read as a
    number), not with the byte value 128. *)
Theorem zone_byte_0x80 :
  let data := status_frame x00 x80 x01 in
  length data = 182%nat /\
  data !! 89%nat = Some x80 /\
  byte_to_Z x80 = 128 /\
  zone data = Ret [xc2; x80] /\
  calls (world (exec (_process_update data) armed_quiet))
  = [onAlarmChange_call (Some true) 49792].
Proof. repeat split. Qed.

(** ** Unexpected buffers *)

(** C5: a buffer whose length is neither 182 nor 8 and that is not the
    bind acknowledgement (the empty buffer of a closed connection
    included) takes the error path: the call returns, health is false,
    both timers are cancelled and the heartbeat attribute cleared, a
    3-unit timer that runs the reconnect is started and stored, the
    status and alarm attributes are untouched, and the only handler
    invoked is the health handler with false. *)
Theorem unexpected_data_reconnects (data : list byte) (s : State) :
  len data <> 182 -> len data <> 8 -> data <> CONNECTION_IS_BOUND ->
  let s' := exec (_process_update data) s in
  outcome (_process_update data) s = Ret tt /\
  all_good (self s') = false /\
  heartbeat_timer (self s') = None /\
  timeout_timer (self s') = Some (length (timers (world s))) /\
  timers (world s')
  = cancel_ref (heartbeat_timer (self s))
      (cancel_ref (timeout_timer (self s)) (timers (world s)))
    ++ [mkTimer 3 (_reconnect_target "...AFTER EXCEPTION") false true false] /\
  (forall id t,
     timeout_timer (self s) = Some id \/ heartbeat_timer (self s) = Some id ->
     timers (world s) !! id = Some t ->
     timers (world s') !! id = Some (cancel_timer t)) /\
  arm_status (self s') = arm_status (self s) /\
  alarming (self s') = alarming (self s) /\
  fortress_socket (self s') = fortress_socket (self s) /\
  count (self s') = count (self s) /\
  wire (world s') = wire (world s) /\
  calls (world s')
  = calls (world s)
    ++ notify (_onErrorChange (self s)) (onErrorChange_call false).
Proof.
  intros H1 H2 H3 s'.
  assert (Hu : unexpected data = true) by (apply unexpected_spec; tauto).
  unfold outcome. subst s'. unfold exec.
  rewrite (_process_update_unexpected data s Hu).
  rewrite _reschedule_reconnect_asap_run. cbn.
  repeat split.
  intros id t Href Ht.
  rewrite lookup_app_l
    by (rewrite !length_cancel_ref; apply (lookup_lt_Some _ _ _ Ht)).
  apply cancel_both_lookup; assumption.
Qed.

Lemma unexpected_data_reconnects_witness :
  len [] <> 182 /\ len [] <> 8 /\ [] <> CONNECTION_IS_BOUND /\
  all_good (self (exec (_process_update []) fresh)) = false /\
  timers (world (exec (_process_update []) fresh))
  = [mkTimer 3 (_reconnect_target "...AFTER EXCEPTION") false true false].
Proof.
  assert (H1 : len [] <> 182) by discriminate.
  assert (H2 : len [] <> 8) by discriminate.
  assert (H3 : [] <> CONNECTION_IS_BOUND) by discriminate.
  repeat (split; [assumption|]).
  destruct (unexpected_data_reconnects [] fresh H1 H2 H3)
    as (_ & Hg & _ & _ & Ht & _).
  split; [exact Hg | exact Ht].
Defined.

(** ** The heartbeat acknowledgement *)

(** Only the first stage of [_process_update] touches the timers. *)
Lemma after_status_timers (latest : list byte) (s : State) :
  let s' := after_status latest s in
  timers (world s') = timers (world s) /\
  timeout_timer (self s') = timeout_timer (self s) /\
  heartbeat_timer (self s') = heartbeat_timer (self s).
Proof.
  unfold after_status.
  destruct (bool_decide (Some latest <> arm_status (self s))); [|auto].
  rewrite (exec_run _ _ _ _ (_set_arm_status_run _ _)). cbn. auto.
Qed.

Lemma after_alarm_timers (now : bool) (latest z : list byte) (s : State) :
  let s' := after_alarm now latest z s in
  timers (world s') = timers (world s) /\
  timeout_timer (self s') = timeout_timer (self s) /\
  heartbeat_timer (self s') = heartbeat_timer (self s).
Proof.
  unfold after_alarm. destruct (alarm_guard now latest s); [|auto].
  rewrite (exec_run _ _ _ _ (_set_alarming_run _ _ _)). cbn. auto.
Qed.

Lemma _process_update_timers (data : list byte) (s : State) :
  unexpected data = false ->
  let s' := exec (_process_update data) s in
  timers (world s') = timers (world (after_ack data s)) /\
  timeout_timer (self s') = timeout_timer (self (after_ack data s)) /\
  heartbeat_timer (self s') = heartbeat_timer (self (after_ack data s)).
Proof.
  intros Hu. cbv zeta. destruct (decide (len data = 182)) as [Hl|Hl].
  - apply (len_length data 182) in Hl.
    destruct (decode_frame data Hl)
      as (b10 & b11 & b12 & b89 & b181 & _ & _ & _ & _ & _ & Hn & Hs & Hz).
    rewrite (exec_run _ _ _ _
               (_process_update_status data s _ _ _ Hl Hn Hs Hz)).
    destruct (after_alarm_timers (bool_decide (b181 = x01)) (status_code b10)
                (utf8_of_byte b89)
                (after_status (status_code b10) (after_ack data s)))
      as (-> & -> & ->).
    apply after_status_timers.
  - rewrite (exec_run _ _ _ _ (_process_update_expected data s Hu Hl)).
    auto.
Qed.

(** C6: a buffer that passes validation and holds the heartbeat
    acknowledgement at any position cancels the pending liveness or
    reconnect timer and replaces it by a started 9-unit timer, which the
    client stores; the heartbeat timer is left alone. *)
Theorem heartbeat_ack_rearms (data pre suf : list byte) (s : State) :
  len data = 182 \/ len data = 8 \/ data = CONNECTION_IS_BOUND ->
  data = pre ++ HEARTBEAT_ACK ++ suf ->
  let s' := exec (_process_update data) s in
  timeout_timer (self s') = Some (length (timers (world s))) /\
  timers (world s') !! length (timers (world s))
  = Some (mkTimer 9 (_reconnect_target EmptyString) false true false) /\
  (forall id t,
     timeout_timer (self s) = Some id ->
     timers (world s) !! id = Some t ->
     timers (world s') !! id = Some (cancel_timer t)) /\
  timers (world s')
  = cancel_ref (timeout_timer (self s)) (timers (world s))
    ++ [mkTimer 9 (_reconnect_target EmptyString) false true false] /\
  heartbeat_timer (self s') = heartbeat_timer (self s).
Proof.
  intros Hvalid Hsub s'.
  apply unexpected_false in Hvalid.
  destruct (_process_update_timers data s Hvalid) as (Ht & Hr & Hh).
  fold s' in Ht, Hr, Hh. rewrite Ht, Hr, Hh.
  assert (Hfind : find data HEARTBEAT_ACK <> -1)
    by (apply find_contains; exists pre, suf; exact Hsub).
  unfold after_ack. rewrite (bool_decide_eq_true_2 _ Hfind).
  rewrite (exec_run _ _ _ _ (_reschedule_reconnect_run s)). cbn.
  repeat split.
  - rewrite <- (length_cancel_ref (timeout_timer (self s))).
    apply lookup_new.
  - intros id t Href Hid.
    rewrite lookup_app_l
      by (rewrite length_cancel_ref; apply (lookup_lt_Some _ _ _ Hid)).
    apply cancel_ref_lookup; assumption.
Qed.

Lemma heartbeat_ack_rearms_witness :
  let data := replicate 100 x00 ++ HEARTBEAT_ACK ++ replicate 74 xff in
  len data = 182 /\
  timers (world (exec (_process_update data) (exec _reschedule_reconnect fresh)))
  = [mkTimer 9 (_reconnect_target EmptyString) false true true;
     mkTimer 9 (_reconnect_target EmptyString) false true false].
Proof.
  intros data. split; [reflexivity|].
  destruct (heartbeat_ack_rearms data (replicate 100 x00) (replicate 74 xff)
              (exec _reschedule_reconnect fresh) (or_introl eq_refl) eq_refl)
    as (_ & _ & _ & H & _).
  exact H.
Defined.

(** C10: an 8-byte buffer that does not hold the heartbeat
    acknowledgement changes nothing at all: the call returns and the
    state, timers, socket calls and handler invocations included, is the
    one before. *)
Theorem other_8_bytes_noop (data : list byte) (s : State) :
  length data = 8%nat ->
  ~ contains data HEARTBEAT_ACK ->
  _process_update data s = (Ret tt, s).
Proof.
  intros Hlen Hno.
  assert (Hl : len data = 8) by (apply (len_length data 8); exact Hlen).
  rewrite _process_update_expected.
  - unfold after_ack. rewrite bool_decide_eq_false_2; [reflexivity|].
    rewrite find_contains. exact Hno.
  - apply unexpected_false. tauto.
  - rewrite Hl. discriminate.
Qed.

Lemma contains_same_length (data sub : list byte) :
  length data = length sub -> contains data sub -> data = sub.
Proof.
  intros Hlen (pre & suf & ->). rewrite !length_app in Hlen.
  destruct pre; [|cbn in Hlen; lia]. destruct suf; [|cbn in Hlen; lia].
  cbn. apply app_nil_r.
Qed.

Lemma other_8_bytes_noop_witness :
  length HEARTBEAT = 8%nat /\ ~ contains HEARTBEAT HEARTBEAT_ACK /\
  _process_update HEARTBEAT armed_alarming = (Ret tt, armed_alarming).
Proof.
  assert (Hno : ~ contains HEARTBEAT HEARTBEAT_ACK).
  { intros H. apply contains_same_length in H; [discriminate | reflexivity]. }
  split; [reflexivity|]. split; [exact Hno|].
  apply (other_8_bytes_noop HEARTBEAT armed_alarming eq_refl Hno).
Defined.

(** ** Commands *)

(** C7: with a socket open, [sendCommand] with a one-byte code makes
    exactly one [send], of the 13-byte header, the code byte and 78 zero
    bytes, 92 bytes in all, and changes nothing else; for Arm the code
    byte is [0x00]. *)
Theorem sendCommand_frame (c : byte) (s : State) (fd : nat) :
  fortress_socket (self s) = Some fd ->
  let frame := COMMAND ++ [c] ++ replicate 78 x00 in
  sendCommand [c] s
  = (Ret tt,
     {| self := self s;
        world := with_wire (fun l => l ++ [sock_send fd frame]) (world s) |})
  /\ length frame = 92%nat
  /\ length COMMAND = 13%nat
  /\ (c = x00 ->
      wire (world (exec (sendCommand ARM) s))
      = wire (world s)
        ++ [sock_send fd (COMMAND ++ [x00] ++ replicate 78 x00)]).
Proof.
  intros Hfd frame. open_state s. cbn in Hfd. subst fs.
  split; [reflexivity|]. split; [reflexivity|]. split; [reflexivity|].
  intros ->. reflexivity.
Qed.

Lemma sendCommand_frame_witness :
  let s := exec (work_connect (Ret tt)) fresh in
  fortress_socket (self s) = Some 0%nat /\
  outcome (sendCommand DISARM) s = Ret tt /\
  wire (world (exec (sendCommand DISARM) s))
  = wire (world s)
    ++ [sock_send 0 (COMMAND ++ [x10] ++ replicate 78 x00)].
Proof.
  intros s.
  destruct (sendCommand_frame x10 s 0 eq_refl) as (H & _).
  split; [reflexivity|].
  unfold outcome, exec. change DISARM with [x10]. rewrite H.
  split; reflexivity.
Defined.

(** ** The receive loop *)

(** A refused connect leaves the new socket in place and takes the error
    path. *)
Lemma work_refused (e : exn) (inbound : list io) (s : State) :
  work (Raise e) inbound s =
  (Ret returned,
   exec _reschedule_reconnect_asap
     {| self := with_fortress_socket (Some (sockets (world s))) (self s);
        world :=
          with_wire (fun l => l ++ [sock_connect (sockets (world s))])
            (with_sockets S (world s)) |}).
Proof.
  unfold work, try_except, bind, exec.
  open_state s. unfold work_connect. run.
  destruct tmo, ht, ce; reflexivity.
Qed.

(** An unexpected buffer ends the loop, whatever input follows. *)
Lemma work_loop_unexpected (data : list byte) (inbound : list io)
    (s : State) :
  all_good (self s) = true -> unexpected data = true ->
  work_loop (recv data :: inbound) s
  = (Ret returned, exec _reschedule_reconnect_asap s).
Proof.
  intros Hg Hu. cbn [work_loop]. unfold bind at 1, attr at 1. rewrite Hg.
  unfold bind at 1, try_except, bind at 1.
  rewrite (_process_update_unexpected data s Hu).
  rewrite _reschedule_reconnect_asap_run.
  rewrite (exec_run _ _ _ _ (_reschedule_reconnect_asap_run s)).
  unfold ret. destruct inbound; reflexivity.
Qed.

(** ** Handler invocations *)

Lemma new_calls_app {A} (m : M A) (s : State) (l : list Call) :
  calls (world (exec m s)) = calls (world s) ++ l -> new_calls m s = l.
Proof. intros H. unfold new_calls. rewrite H. apply drop_app_length. Qed.

Lemma _process_update_calls (data : list byte) (s : State) (now : bool)
    (latest z : list byte) :
  length data = 182%nat ->
  now_alarming data = Ret now ->
  latest_arm_status data = Ret latest ->
  zone data = Ret z ->
  new_calls (_process_update data) s
  = (if bool_decide (Some latest <> arm_status (self s))
     then notify (_onStatusChange (self s)) (onStatusChange_call (Some latest))
     else [])
    ++ (if alarm_guard now latest s
        then notify (_onAlarmChange (self s))
               (onAlarmChange_call (Some now) (int_from_bytes z))
        else []).
Proof.
  intros Hlen Hn Hl Hz. apply new_calls_app.
  rewrite (exec_run _ _ _ _ (_process_update_status data s _ _ _ Hlen Hn Hl Hz)).
  unfold after_alarm, after_status, after_ack, alarm_guard.
  open_state s.
  destruct (bool_decide (find data HEARTBEAT_ACK <> -1));
    [rewrite (exec_run _ _ _ _ (_reschedule_reconnect_run _))|]; cbn.
  all: destruct (bool_decide (Some latest <> st));
    [rewrite (exec_run _ _ _ _ (_set_arm_status_run _ _))|]; cbn.
  all: destruct (bool_decide (Some now <> al) && _);
    [rewrite (exec_run _ _ _ _ (_set_alarming_run _ _ _))|]; cbn.
  all: rewrite <- ?app_assoc, ?app_nil_r; reflexivity.
Qed.

Lemma elem_of_notify (registered : bool) (c k : Call) :
  k ∈ notify registered c -> k = c.
Proof.
  destruct registered; cbn; [|intros H; inversion H].
  intros H. apply list_elem_of_singleton in H. exact H.
Qed.

(** C8, as stated, fails: tearing down a client whose health is already
    false invokes the health handler with false. *)
Lemma fires_on_change_only_fails :
  ~ fires_on_change_only _tear_down fresh.
Proof.
  intros H. apply (H (onErrorChange_call false)); [|reflexivity].
  apply list_elem_of_here.
Qed.

(** C8, amended: while a frame is processed the status handler and the
    alarm handler are invoked only with a value that differs from the
    stored one, and the health handler only with false on an unexpected
    buffer; every [_set_all_good], every error path and every connect
    invokes the health handler, and every teardown invokes the health
    handler with false and the alarm handler with the cleared flag and
    zone 0, whether or not the stored value changes; re-arming or
    clearing the timers, sending a command and sending a heartbeat invoke
    no handler. *)
Theorem callbacks_and_change :
  (forall data s k,
     k ∈ new_calls (_process_update data) s ->
     match k with
     | onErrorChange_call g => g = false /\ unexpected data = true
     | _ => changes (self s) k
     end) /\
  (forall isGood s,
     new_calls (_set_all_good isGood) s
     = notify (_onErrorChange (self s)) (onErrorChange_call isGood)) /\
  (forall s,
     new_calls _reschedule_reconnect_asap s
     = notify (_onErrorChange (self s)) (onErrorChange_call false)) /\
  (forall s,
     new_calls _tear_down s
     = notify (_onErrorChange (self s)) (onErrorChange_call false)
       ++ notify (_onAlarmChange (self s)) (onAlarmChange_call None 0)) /\
  (forall s,
     new_calls (work_connect (Ret tt)) s
     = notify (_onErrorChange (self s)) (onErrorChange_call true)) /\
  (forall s, new_calls _reschedule_reconnect s = []) /\
  (forall s, new_calls _clear_timers s = []) /\
  (forall msg s, new_calls (sendCommand msg) s = []) /\
  (forall s, new_calls _send_heartbeat s = []).
Proof.
  split; [|split; [|split; [|split; [|split; [|split; [|split; [|split]]]]]]].
  - intros data s k Hk.
    destruct (unexpected data) eqn:Hu.
    + unfold new_calls, exec in Hk.
      rewrite (_process_update_unexpected data s Hu) in Hk.
      rewrite _reschedule_reconnect_asap_run in Hk. cbn in Hk.
      rewrite drop_app_length in Hk. apply elem_of_notify in Hk.
      subst k. auto.
    + destruct (decide (len data = 182)) as [Hl|Hl].
      * apply (len_length data 182) in Hl.
        destruct (decode_frame data Hl)
          as (b10 & b11 & b12 & b89 & b181 & _ & _ & _ & _ & _ & Hn & Hs & Hz).
        rewrite (_process_update_calls data s _ _ _ Hl Hn Hs Hz) in Hk.
        apply elem_of_app in Hk as [Hk|Hk].
        -- destruct (bool_decide _) eqn:E in Hk; [|inversion Hk].
           apply elem_of_notify in Hk. subst k. cbn.
           apply bool_decide_eq_true in E. congruence.
        -- destruct (alarm_guard _ _ s) eqn:E in Hk; [|inversion Hk].
           apply elem_of_notify in Hk. subst k. cbn.
           apply alarm_guard_spec in E as [E _]. congruence.
      * unfold new_calls in Hk.
        rewrite (exec_run _ _ _ _ (_process_update_expected data s Hu Hl))
          in Hk.
        unfold after_ack in Hk.
        destruct (bool_decide (find data HEARTBEAT_ACK <> -1));
          [rewrite (exec_run _ _ _ _ (_reschedule_reconnect_run s)) in Hk|];
          cbn in Hk; rewrite drop_all in Hk; inversion Hk.
  - intros isGood s. apply new_calls_app.
    rewrite (exec_run _ _ _ _ (_set_all_good_run isGood s)). reflexivity.
  - intros s. apply new_calls_app.
    rewrite (exec_run _ _ _ _ (_reschedule_reconnect_asap_run s)).
    reflexivity.
  - intros s. apply new_calls_app.
    rewrite (exec_run _ _ _ _ (_tear_down_run s)). reflexivity.
  - intros s. apply new_calls_app.
    rewrite (exec_run _ _ _ _ (work_connect_run s)). reflexivity.
  - intros s. apply new_calls_app.
    rewrite (exec_run _ _ _ _ (_reschedule_reconnect_run s)).
    cbn. rewrite app_nil_r. reflexivity.
  - intros s. apply new_calls_app.
    rewrite (exec_run _ _ _ _ (_clear_timers_run s)).
    cbn. rewrite app_nil_r. reflexivity.
  - intros msg s. apply new_calls_app. open_state s.
    destruct fs; run; rewrite app_nil_r; reflexivity.
  - intros s. apply new_calls_app. open_state s.
    destruct fs; run; rewrite app_nil_r; reflexivity.
Qed.

Lemma callbacks_and_change_witness :
  onStatusChange_call (Some DISARM)
    ∈ new_calls (_process_update (status_frame x10 x05 x00)) fresh /\
  changes (self fresh) (onStatusChange_call (Some DISARM)).
Proof.
  assert (H : onStatusChange_call (Some DISARM)
                ∈ new_calls (_process_update (status_frame x10 x05 x00)) fresh)
    by apply list_elem_of_here.
  split; [exact H|].
  destruct callbacks_and_change as [Hframe _].
  exact (Hframe _ _ _ H).
Defined.

(** ** Teardown *)

(** C9, as stated, fails: the second teardown invokes the health handler
    and the alarm handler again. *)
Lemma teardown_idempotent_fails : ~ teardown_idempotent fresh.
Proof. intros [_ H]. discriminate H. Qed.

(** C9, amended: after a teardown that ran to completion (no socket was
    held, or the [shutdown] of the held socket returned), a second
    teardown returns whatever [shutdown] would do, leaves every attribute
    of the client as the first left it, cancels no timer and makes no
    socket call; it does invoke the registered health handler with false
    and the registered alarm handler with the cleared flag and zone 0
    once more. *)
Theorem teardown_twice (shut shut' : result unit) (s : State) :
  outcome (_tear_down_on shut) s = Ret tt ->
  let s1 := exec (_tear_down_on shut) s in
  let s2 := exec (_tear_down_on shut') s1 in
  outcome (_tear_down_on shut') s1 = Ret tt /\
  self s2 = self s1 /\
  timers (world s2) = timers (world s1) /\
  sockets (world s2) = sockets (world s1) /\
  wire (world s2) = wire (world s1) /\
  calls (world s2)
  = calls (world s1)
    ++ notify (_onErrorChange (self s)) (onErrorChange_call false)
    ++ notify (_onAlarmChange (self s)) (onAlarmChange_call None 0).
Proof.
  intros H. apply _tear_down_on_outcome in H. cbv zeta. unfold outcome, exec.
  rewrite (_tear_down_on_completes shut s H), _tear_down_run. cbn [snd].
  rewrite (_tear_down_on_completes shut') by (left; reflexivity).
  rewrite _tear_down_run. cbn. rewrite app_nil_r. repeat split.
Qed.

Lemma teardown_twice_witness :
  let s := exec (work_connect (Ret tt)) fresh in
  outcome (_tear_down_on (Ret tt)) s = Ret tt /\
  wire (world (exec (_tear_down_on (Raise OSError))
                 (exec (_tear_down_on (Ret tt)) s)))
  = wire (world (exec (_tear_down_on (Ret tt)) s)) /\
  calls (world (exec (_tear_down_on (Raise OSError))
                  (exec (_tear_down_on (Ret tt)) s)))
  = calls (world (exec (_tear_down_on (Ret tt)) s))
    ++ [onErrorChange_call false; onAlarmChange_call None 0].
Proof.
  intros s.
  assert (H : outcome (_tear_down_on (Ret tt)) s = Ret tt) by reflexivity.
  split; [exact H|].
  destruct (teardown_twice (Ret tt) (Raise OSError) s H)
    as (_ & _ & _ & _ & Hw & Hc).
  split; [exact Hw | exact Hc].
Defined.

(** * Further properties *)

(** ** The stages of frame processing and of the loop *)

Lemma same_link_refl (s : State) : same_link s s.
Proof. unfold same_link. tauto. Qed.

Lemma same_link_trans (s1 s2 s3 : State) :
  same_link s1 s2 -> same_link s2 s3 -> same_link s1 s3.
Proof. unfold same_link. intuition congruence. Qed.

Lemma after_ack_link (data : list byte) (s : State) :
  same_link s (after_ack data s) /\
  all_good (self (after_ack data s)) = all_good (self s) /\
  arm_status (self (after_ack data s)) = arm_status (self s) /\
  alarming (self (after_ack data s)) = alarming (self s) /\
  calls (world (after_ack data s)) = calls (world s).
Proof.
  unfold after_ack, same_link.
  destruct (bool_decide (find data HEARTBEAT_ACK <> -1)); [|tauto].
  rewrite (exec_run _ _ _ _ (_reschedule_reconnect_run s)). cbn. tauto.
Qed.

Lemma after_status_link (latest : list byte) (s : State) :
  same_link s (after_status latest s) /\
  all_good (self (after_status latest s)) = all_good (self s) /\
  alarming (self (after_status latest s)) = alarming (self s).
Proof.
  unfold after_status, same_link.
  destruct (bool_decide (Some latest <> arm_status (self s))); [|tauto].
  rewrite (exec_run _ _ _ _ (_set_arm_status_run _ _)). cbn. tauto.
Qed.

Lemma after_alarm_link (now : bool) (latest z : list byte) (s : State) :
  same_link s (after_alarm now latest z s) /\
  all_good (self (after_alarm now latest z s)) = all_good (self s).
Proof.
  unfold after_alarm, same_link.
  destruct (alarm_guard now latest s); [|tauto].
  rewrite (exec_run _ _ _ _ (_set_alarming_run _ _ _)). cbn. tauto.
Qed.

(** The state after [_process_update], by the shape of the buffer. *)
Lemma _process_update_cases (data : list byte) (s : State) :
  (unexpected data = true /\
   exec (_process_update data) s = exec _reschedule_reconnect_asap s) \/
  (unexpected data = false /\ len data <> 182 /\
   exec (_process_update data) s = after_ack data s) \/
  (unexpected data = false /\ length data = 182%nat /\
   exists now latest z,
     now_alarming data = Ret now /\ latest_arm_status data = Ret latest /\
     zone data = Ret z /\
     exec (_process_update data) s
     = after_alarm now latest z (after_status latest (after_ack data s))).
Proof.
  destruct (unexpected data) eqn:Hu.
  - left. split; [reflexivity|]. unfold exec.
    rewrite (_process_update_unexpected data s Hu). reflexivity.
  - right. destruct (decide (len data = 182)) as [Hl|Hl].
    + right. apply (len_length data 182) in Hl.
      destruct (decode_frame data Hl)
        as (b10 & b11 & b12 & b89 & b181 & _ & _ & _ & _ & _ & Hn & Hs & Hz).
      split; [reflexivity|]. split; [exact Hl|].
      eexists _, _, _. repeat (split; [eassumption|]).
      apply (exec_run _ _ _ _ (_process_update_status data s _ _ _ Hl Hn Hs Hz)).
    + left. split; [reflexivity|]. split; [exact Hl|].
      apply (exec_run _ _ _ _ (_process_update_expected data s Hu Hl)).
Qed.

Lemma _process_update_link (data : list byte) (s : State) :
  same_link s (exec (_process_update data) s).
Proof.
  destruct (_process_update_cases data s)
    as [[_ ->] | [(_ & _ & ->) | (_ & _ & now & latest & z & _ & _ & _ & ->)]].
  - rewrite (exec_run _ _ _ _ (_reschedule_reconnect_asap_run s)).
    unfold same_link. cbn. tauto.
  - apply after_ack_link.
  - eapply same_link_trans; [apply after_ack_link|].
    eapply same_link_trans; [apply after_status_link|].
    apply after_alarm_link.
Qed.

Lemma _process_update_health (data : list byte) (s : State) :
  all_good (self (exec (_process_update data) s))
  = all_good (self s) && negb (unexpected data).
Proof.
  destruct (_process_update_cases data s)
    as [[Hu ->] | [(Hu & _ & ->) | (Hu & _ & now & latest & z & _ & _ & _ & ->)]];
    rewrite Hu; cbn; rewrite ?andb_true_r, ?andb_false_r.
  - rewrite (exec_run _ _ _ _ (_reschedule_reconnect_asap_run s)). reflexivity.
  - apply after_ack_link.
  - destruct (after_alarm_link now latest z
                (after_status latest (after_ack data s))) as [_ ->].
    destruct (after_status_link latest (after_ack data s)) as (_ & -> & _).
    apply after_ack_link.
Qed.

(** One turn of the loop. *)
Lemma work_loop_stopped (inbound : list io) (s : State) :
  all_good (self s) = false -> work_loop inbound s = (Ret returned, s).
Proof.
  intros H. destruct inbound; cbn [work_loop]; unfold bind, attr;
    rewrite H; reflexivity.
Qed.

Lemma work_loop_turn (ev : io) (inbound : list io) (s : State) :
  all_good (self s) = true ->
  work_loop (ev :: inbound) s =
  match ev with
  | select_timeout => (Ret returned, s)
  | recv data => work_loop inbound (exec (_process_update data) s)
  | io_raise KeyboardInterrupt => (Raise SystemExit, exec _tear_down s)
  | io_raise SystemExit => (Ret returned, s)
  | io_raise _ => (Ret returned, exec _reschedule_reconnect_asap s)
  end.
Proof.
  intros Hg. cbn [work_loop]. unfold bind at 1, attr at 1. rewrite Hg.
  unfold bind at 1, try_except.
  destruct ev as [|data|e].
  - reflexivity.
  - unfold bind at 1. rewrite (run_pair (_process_update data) s).
    rewrite _process_update_returns. reflexivity.
  - unfold raise.
    destruct e; unfold bind;
      rewrite ?_reschedule_reconnect_asap_run, ?_tear_down_run;
      unfold exec; rewrite ?_reschedule_reconnect_asap_run, ?_tear_down_run;
      reflexivity.
Qed.

(** ** The timers the client holds *)

Lemma timers_owned_ext (s s' : State) :
  timers (world s') = timers (world s) ->
  timeout_timer (self s') = timeout_timer (self s) ->
  heartbeat_timer (self s') = heartbeat_timer (self s) ->
  timers_owned s -> timers_owned s'.
Proof. unfold timers_owned. intros -> -> ->. auto. Qed.


Lemma cancel_ref_running (ref : option nat) (ts : list Timer) (id : nat)
    (t : Timer) :
  cancel_ref ref ts !! id = Some t -> cancelled t = false ->
  ts !! id = Some t /\ ref <> Some id.
Proof.
  intros H Hc. destruct (decide (ref = Some id)) as [E|N].
  - subst ref. cbn in H. rewrite list_lookup_alter_eq in H.
    destruct (ts !! id) as [t0|]; [|discriminate].
    injection H as <-. discriminate.
  - rewrite cancel_ref_lookup_other in H by exact N. auto.
Qed.

Lemma lookup_snoc_Some {A} (l : list A) (x y : A) (i : nat) :
  (l ++ [x]) !! i = Some y ->
  l !! i = Some y \/ (i = length l /\ y = x).
Proof.
  intros H. apply lookup_app_Some in H as [H | [Hle H]]; [left; exact H|].
  apply list_lookup_singleton_Some in H as [H0 ->].
  right. split; [lia | reflexivity].
Qed.

Lemma timers_owned__reschedule_reconnect (s : State) :
  timers_owned s -> timers_owned (exec _reschedule_reconnect s).
Proof.
  intros Hs id t. rewrite (exec_run _ _ _ _ (_reschedule_reconnect_run s)).
  cbn. intros H Hst Hc. apply lookup_snoc_Some in H as [H | [-> _]].
  - apply cancel_ref_running in H as [H N]; [|exact Hc].
    destruct (Hs id t H Hst Hc) as [E|E]; [contradiction | right; exact E].
  - left. rewrite !length_cancel_ref. reflexivity.
Qed.

Lemma timers_owned__reschedule_reconnect_asap (s : State) :
  timers_owned s -> timers_owned (exec _reschedule_reconnect_asap s).
Proof.
  intros Hs id t.
  rewrite (exec_run _ _ _ _ (_reschedule_reconnect_asap_run s)).
  cbn. intros H Hst Hc. apply lookup_snoc_Some in H as [H | [-> _]].
  - apply cancel_ref_running in H as [H N2]; [|exact Hc].
    apply cancel_ref_running in H as [H N1]; [|exact Hc].
    destruct (Hs id t H Hst Hc); contradiction.
  - left. rewrite !length_cancel_ref. reflexivity.
Qed.

Lemma cleared_no_timer_running (s : State) (ts : list Timer) :
  timers_owned s ->
  ts = cancel_ref (heartbeat_timer (self s))
         (cancel_ref (timeout_timer (self s)) (timers (world s))) ->
  forall id t, ts !! id = Some t -> started t = true -> cancelled t = true.
Proof.
  intros Hs -> id t H Hst.
  destruct (cancelled t) eqn:Hc; [reflexivity|].
  apply cancel_ref_running in H as [H N2]; [|exact Hc].
  apply cancel_ref_running in H as [H N1]; [|exact Hc].
  destruct (Hs id t H Hst Hc); contradiction.
Qed.

Lemma no_timer_running_owned (s : State) :
  no_timer_running s -> timers_owned s.
Proof.
  intros H id t Ht Hst Hc. rewrite (H id t Ht Hst) in Hc. discriminate.
Qed.

Lemma no_timer_running__tear_down (s : State) :
  timers_owned s -> no_timer_running (exec _tear_down s).
Proof.
  intros Hs. rewrite (exec_run _ _ _ _ (_tear_down_run s)).
  unfold no_timer_running. cbn.
  apply (cleared_no_timer_running s _ Hs). reflexivity.
Qed.

Lemma no_timer_running__clear_timers (s : State) :
  timers_owned s -> no_timer_running (exec _clear_timers s).
Proof.
  intros Hs. rewrite (exec_run _ _ _ _ (_clear_timers_run s)).
  unfold no_timer_running. cbn.
  apply (cleared_no_timer_running s _ Hs). reflexivity.
Qed.

Lemma timers_owned_after_ack (data : list byte) (s : State) :
  timers_owned s -> timers_owned (after_ack data s).
Proof.
  intros Hs. unfold after_ack.
  destruct (bool_decide (find data HEARTBEAT_ACK <> -1)); [|exact Hs].
  apply timers_owned__reschedule_reconnect, Hs.
Qed.

Lemma timers_owned__process_update (data : list byte) (s : State) :
  timers_owned s -> timers_owned (exec (_process_update data) s).
Proof.
  intros Hs. destruct (unexpected data) eqn:Hu.
  - unfold exec. rewrite (_process_update_unexpected data s Hu).
    apply timers_owned__reschedule_reconnect_asap, Hs.
  - destruct (_process_update_timers data s Hu) as (Ht & Hr & Hh).
    apply (timers_owned_ext (after_ack data s)); try assumption.
    apply timers_owned_after_ack, Hs.
Qed.

Lemma timers_owned_work_connect (s : State) :
  timers_owned s -> heartbeat_timer (self s) = None ->
  timers_owned (exec (work_connect (Ret tt)) s).
Proof.
  intros Hs Hh id t. rewrite (exec_run _ _ _ _ (work_connect_run s)).
  cbn. intros H Hst Hc.
  apply lookup_app_Some in H as [H | [Hle H]].
  - apply cancel_ref_running in H as [H N]; [|exact Hc].
    destruct (Hs id t H Hst Hc) as [E|E]; [contradiction | congruence].
  - rewrite length_cancel_ref in Hle, H.
    destruct (id - length (timers (world s)))%nat as [|[|k]] eqn:E;
      [left | right | discriminate H]; f_equal; lia.
Qed.

(** A property that frame processing, teardown and the error path keep is
    kept by the receive loop. *)
Lemma work_loop_preserves (P : State -> Prop) :
  (forall data s, P s -> P (exec (_process_update data) s)) ->
  (forall s, P s -> P (exec _tear_down s)) ->
  (forall s, P s -> P (exec _reschedule_reconnect_asap s)) ->
  forall inbound s, P s -> P (exec (work_loop inbound) s).
Proof.
  intros Hp Ht He inbound.
  induction inbound as [|ev inbound IH]; intros s Hs.
  - destruct (all_good (self s)) eqn:Hg.
    + unfold exec. cbn [work_loop]. unfold bind, attr. rewrite Hg. exact Hs.
    + unfold exec. rewrite (work_loop_stopped _ s Hg). exact Hs.
  - destruct (all_good (self s)) eqn:Hg.
    + unfold exec. rewrite (work_loop_turn ev inbound s Hg).
      destruct ev as [|data|e].
      * exact Hs.
      * apply IH, Hp, Hs.
      * destruct e; cbn [snd]; auto.
    + unfold exec. rewrite (work_loop_stopped _ s Hg). exact Hs.
Qed.

(** [work] after a successful and after a failed connect. *)
Lemma work_connected (inbound : list io) (s : State) :
  work (Ret tt) inbound s
  = work_loop inbound (exec (work_connect (Ret tt)) s).
Proof.
  unfold work, try_except. unfold bind at 1, bind at 1.
  rewrite (exec_run _ _ _ _ (work_connect_run s)), work_connect_run.
  reflexivity.
Qed.

Lemma timers_owned_work (connected : result unit) (inbound : list io)
    (s : State) :
  timers_owned s -> heartbeat_timer (self s) = None ->
  timers_owned (exec (work connected inbound) s).
Proof.
  intros Hs Hh. destruct connected as [[]|e].
  - unfold exec. rewrite work_connected.
    apply (work_loop_preserves timers_owned).
    + apply timers_owned__process_update.
    + intros s' H'. apply no_timer_running_owned, no_timer_running__tear_down, H'.
    + apply timers_owned__reschedule_reconnect_asap.
    + apply timers_owned_work_connect; assumption.
  - unfold exec. rewrite work_refused. cbn [snd].
    apply timers_owned__reschedule_reconnect_asap.
    eapply timers_owned_ext; [| | |exact Hs]; reflexivity.
Qed.

Lemma _reconnect_work (connected : result unit) (inbound : list io)
    (s : State) :
  _reconnect connected inbound s
  = work connected inbound (exec _tear_down s).
Proof.
  unfold _reconnect, _reconnect_on, bind.
  fold _tear_down.
  rewrite (exec_run _ _ _ _ (_tear_down_run s)), _tear_down_run.
  reflexivity.
Qed.

Lemma timers_owned__reconnect (connected : result unit) (inbound : list io)
    (s : State) :
  timers_owned s -> timers_owned (exec (_reconnect connected inbound) s).
Proof.
  intros Hs. unfold exec. rewrite _reconnect_work.
  apply timers_owned_work.
  - apply no_timer_running_owned, no_timer_running__tear_down, Hs.
  - rewrite (exec_run _ _ _ _ (_tear_down_run s)). reflexivity.
Qed.

(** ** Health and what it implies *)






(** ** How [work] ends *)


Lemma work_loop_waiting (inbound : list io) (s : State) :
  outcome (work_loop inbound) s = Ret waiting <->
  all_good (self s) = true /\ Forall expected_buffer inbound.
Proof.
  revert s. induction inbound as [|ev inbound IH]; intros s.
  - unfold outcome. cbn [work_loop]. unfold bind, attr.
    destruct (all_good (self s)); cbn; split.
    + intros _. split; [reflexivity | constructor].
    + reflexivity.
    + discriminate.
    + intros [H _]. discriminate H.
  - destruct (all_good (self s)) eqn:Hg.
    + unfold outcome. rewrite (work_loop_turn ev inbound s Hg).
      destruct ev as [|data|x].
      * split; [discriminate|]. intros [_ H]. inversion H as [|? ? [d [E _]] _].
        discriminate E.
      * fold (outcome (work_loop inbound) (exec (_process_update data) s)).
        rewrite IH, _process_update_health, Hg. cbn [andb]. split.
        -- intros [Hu H]. apply negb_true_iff in Hu. split; [reflexivity|].
           constructor; [exists data; auto | exact H].
        -- intros [_ H]. inversion H as [|? ? [d [E Hu]] H']. subst.
           injection E as <-. rewrite Hu. auto.
      * split.
        -- destruct x; discriminate.
        -- intros [_ H]. inversion H as [|? ? [d [E _]] _]. discriminate E.
    + unfold outcome. rewrite (work_loop_stopped _ s Hg). cbn.
      split; [discriminate | intros [H _]; discriminate H].
Qed.

Lemma work_loop_feed (ds : list (list byte)) (s : State) :
  all_good (self s) = true ->
  Forall (fun d => unexpected d = false) ds ->
  work_loop (map recv ds) s = (Ret waiting, feed ds s).
Proof.
  revert s. induction ds as [|d ds IH]; intros s Hg Hds.
  - cbn [map work_loop feed fold_left]. unfold bind, attr. rewrite Hg.
    reflexivity.
  - inversion Hds as [|? ? Hd Hds']. subst. cbn [map].
    rewrite (work_loop_turn _ _ s Hg). cbn [feed fold_left].
    apply IH; [|exact Hds'].
    rewrite _process_update_health, Hg, Hd. reflexivity.
Qed.

(** ** The alarm latch *)

Lemma feed_cons (d : list byte) (ds : list (list byte)) (s : State) :
  feed (d :: ds) s = feed ds (exec (_process_update d) s).
Proof. reflexivity. Qed.

Lemma ignores_refl (s : State) : ignores s s.
Proof. split; reflexivity. Qed.

Lemma ignores_trans (s1 s2 s3 : State) :
  ignores s1 s2 -> ignores s2 s3 -> ignores s1 s3.
Proof. unfold ignores. intuition congruence. Qed.

Lemma after_ack_ignores (data : list byte) (s : State) :
  ignores s (after_ack data s).
Proof.
  destruct (after_ack_link data s) as (_ & _ & _ & Ha & Hc).
  split; [exact Ha | rewrite Hc; reflexivity].
Qed.

Lemma latched_step (data : list byte) (s : State) :
  alarming (self s) = Some true ->
  (length data = 182%nat -> latest_arm_status data <> Ret DISARM) ->
  ignores s (exec (_process_update data) s).
Proof.
  intros Hal Hd.
  destruct (_process_update_cases data s)
    as [[_ E] | [(_ & _ & E) | (_ & Hl & now & latest & z & Hn & Hs & Hz & _)]].
  - rewrite E, (exec_run _ _ _ _ (_reschedule_reconnect_asap_run s)).
    split; [reflexivity|]. cbn. rewrite alarm_calls_app.
    destruct (_onErrorChange (self s)); cbn; rewrite app_nil_r; reflexivity.
  - rewrite E. apply after_ack_ignores.
  - destruct (_process_update_alarm data s now latest z Hl Hn Hs Hz)
      as [_ Hign].
    apply Hign. intros [_ [G|G]].
    + exact (G Hal).
    + apply (Hd Hl). rewrite Hs, G. reflexivity.
Qed.


(** ** Properties of the whole client *)

(** X1: [_process_update] returns normally on every buffer, and whatever
    the buffer it makes no socket call, creates no socket and leaves the
    socket attribute, the heartbeat counter and the registered handlers
    as they were. *)
Theorem frame_processing_is_safe (data : list byte) (s : State) :
  outcome (_process_update data) s = Ret tt /\
  same_link s (exec (_process_update data) s).
Proof.
  split; [apply _process_update_returns | apply _process_update_link].
Qed.

(** X2: a client that holds every running timer keeps holding every
    running timer through frame processing, re-arming, the error path,
    clearing, teardown and reconnect, and through [work] when it is
    entered with no heartbeat timer held. *)
Theorem timers_stay_owned (s : State) :
  timers_owned s ->
  (forall data, timers_owned (exec (_process_update data) s)) /\
  timers_owned (exec _reschedule_reconnect s) /\
  timers_owned (exec _reschedule_reconnect_asap s) /\
  timers_owned (exec _clear_timers s) /\
  timers_owned (exec _tear_down s) /\
  (forall connected inbound,
     timers_owned (exec (_reconnect connected inbound) s)) /\
  (forall connected inbound,
     heartbeat_timer (self s) = None ->
     timers_owned (exec (work connected inbound) s)).
Proof.
  intros Hs. repeat split.
  - intros data. apply timers_owned__process_update, Hs.
  - apply timers_owned__reschedule_reconnect, Hs.
  - apply timers_owned__reschedule_reconnect_asap, Hs.
  - apply no_timer_running_owned, no_timer_running__clear_timers, Hs.
  - apply no_timer_running_owned, no_timer_running__tear_down, Hs.
  - intros. apply timers_owned__reconnect, Hs.
  - intros. apply timers_owned_work; assumption.
Qed.

Lemma timers_owned_fresh : timers_owned fresh.
Proof. intros id t H. destruct id; discriminate H. Qed.

Lemma timers_stay_owned_witness :
  timers_owned fresh /\
  timers_owned (exec (work (Ret tt) [recv HEARTBEAT_ACK; recv []]) fresh).
Proof.
  split; [exact timers_owned_fresh|].
  destruct (timers_stay_owned fresh timers_owned_fresh)
    as (_ & _ & _ & _ & _ & _ & H).
  apply H. reflexivity.
Defined.

(** X3: [work] entered while a heartbeat timer is held overwrites the
    attribute without cancelling: after a successful connect that timer
    is exactly as it was, and neither attribute refers to it. *)
Theorem work_orphans_heartbeat_timer (s : State) (j : nat) (t : Timer) :
  heartbeat_timer (self s) = Some j ->
  timeout_timer (self s) <> Some j ->
  timers (world s) !! j = Some t ->
  let s' := exec (work_connect (Ret tt)) s in
  timers (world s') !! j = Some t /\
  timeout_timer (self s') <> Some j /\
  heartbeat_timer (self s') <> Some j.
Proof.
  intros Hh Ht Hj s'. subst s'.
  rewrite (exec_run _ _ _ _ (work_connect_run s)). cbn.
  assert (Hlt : (j < length (timers (world s)))%nat)
    by apply (lookup_lt_Some _ _ _ Hj).
  repeat split.
  - rewrite lookup_app_l by (rewrite length_cancel_ref; exact Hlt).
    rewrite cancel_ref_lookup_other by exact Ht. exact Hj.
  - intros [= E]. lia.
  - intros [= E]. lia.
Qed.

Lemma work_orphans_heartbeat_timer_witness :
  let s := exec (work_connect (Ret tt)) fresh in
  heartbeat_timer (self s) = Some 1%nat /\
  timers (world (exec (work_connect (Ret tt)) s)) !! 1%nat
  = Some heartbeat_repeater.
Proof.
  intros s. split; [reflexivity|].
  destruct (work_orphans_heartbeat_timer s 1 heartbeat_repeater)
    as (H & _); [reflexivity | discriminate | reflexivity | exact H].
Defined.

(** X4: after a teardown that ran to completion (no socket was held, or
    the [shutdown] of the held socket returned) on a client that holds
    every running timer, no timer is running, the two timer attributes
    and the socket attribute are [None] and [isAllGood] answers false. *)
Theorem teardown_stops_all_timers (shut : result unit) (s : State) :
  timers_owned s ->
  outcome (_tear_down_on shut) s = Ret tt ->
  let s' := exec (_tear_down_on shut) s in
  no_timer_running s' /\
  timeout_timer (self s') = None /\
  heartbeat_timer (self s') = None /\
  fortress_socket (self s') = None /\
  outcome isAllGood s' = Ret false.
Proof.
  intros Hs H s'. apply _tear_down_on_outcome in H. subst s'. unfold exec.
  rewrite (_tear_down_on_completes shut s H).
  fold (exec _tear_down s).
  split; [apply no_timer_running__tear_down, Hs|].
  rewrite (exec_run _ _ _ _ (_tear_down_run s)). repeat split.
Qed.

Lemma teardown_stops_all_timers_witness :
  let s := exec (work (Ret tt) []) fresh in
  timers_owned s /\ outcome (_tear_down_on (Ret tt)) s = Ret tt /\
  no_timer_running (exec (_tear_down_on (Ret tt)) s).
Proof.
  intros s.
  assert (Hs : timers_owned s).
  { apply timers_owned_work; [exact timers_owned_fresh | reflexivity]. }
  assert (H : outcome (_tear_down_on (Ret tt)) s = Ret tt) by reflexivity.
  split; [exact Hs|]. split; [exact H|].
  destruct (teardown_stops_all_timers (Ret tt) s Hs H) as [Hn _]. exact Hn.
Defined.

(** X22: a teardown whose [shutdown] raises stops there with that
    exception: health is false, the status and the alarm flag are
    cleared, the counter is 0 and both handlers were invoked, but the
    socket attribute still holds the socket, which was not closed, and
    the timer attributes and every timer are as before, none cancelled;
    a further teardown with the same failure raises again. *)
Theorem teardown_stops_at_failed_shutdown (e : exn) (s : State) (fd : nat) :
  fortress_socket (self s) = Some fd ->
  let s' := exec (_tear_down_on (Raise e)) s in
  outcome (_tear_down_on (Raise e)) s = Raise e /\
  fortress_socket (self s') = Some fd /\
  timeout_timer (self s') = timeout_timer (self s) /\
  heartbeat_timer (self s') = heartbeat_timer (self s) /\
  timers (world s') = timers (world s) /\
  wire (world s') = wire (world s) ++ [sock_shutdown fd] /\
  all_good (self s') = false /\
  arm_status (self s') = None /\
  alarming (self s') = None /\
  count (self s') = 0 /\
  calls (world s')
  = calls (world s)
    ++ notify (_onErrorChange (self s)) (onErrorChange_call false)
    ++ notify (_onAlarmChange (self s)) (onAlarmChange_call None 0) /\
  _tear_down_on (Raise e) s' = (Raise e, exec (_tear_down_on (Raise e)) s').
Proof.
  intros Hfd s'. subst s'. unfold outcome, exec.
  rewrite (_tear_down_on_raises e s fd Hfd). cbn [fst snd].
  repeat split; try (cbn; assumption).
  rewrite (_tear_down_on_raises e _ fd) by (cbn; exact Hfd). reflexivity.
Qed.

Lemma teardown_stops_at_failed_shutdown_witness :
  let s := exec (work (Raise OSError) []) fresh in
  fortress_socket (self s) = Some 0%nat /\
  outcome (_tear_down_on (Raise OSError)) s = Raise OSError /\
  timeout_timer (self (exec (_tear_down_on (Raise OSError)) s)) = Some 0%nat /\
  timers (world (exec (_tear_down_on (Raise OSError)) s))
  = [mkTimer 3 (_reconnect_target "...AFTER EXCEPTION") false true false].
Proof.
  intros s.
  assert (H : fortress_socket (self s) = Some 0%nat) by reflexivity.
  split; [exact H|].
  destruct (teardown_stops_at_failed_shutdown OSError s 0 H)
    as (Ho & _ & Ht & _ & Hts & _).
  split; [exact Ho|]. split; [exact Ht | exact Hts].
Defined.

(** X24: a client that holds every running timer keeps holding every
    running timer through a teardown and through a reconnect whatever
    [shutdown] does in it, also when it raises. *)
Theorem timers_stay_owned_whatever_shutdown (shut : result unit) (s : State) :
  timers_owned s ->
  timers_owned (exec (_tear_down_on shut) s) /\
  (forall connected inbound,
     timers_owned (exec (_reconnect_on shut connected inbound) s)).
Proof.
  intros Hs.
  assert (Hdone : fortress_socket (self s) = None \/ shut = Ret tt ->
                  timers_owned (exec (_tear_down_on shut) s) /\
                  (forall connected inbound,
                     timers_owned
                       (exec (_reconnect_on shut connected inbound) s))).
  { intros H. split.
    - unfold exec. rewrite (_tear_down_on_completes shut s H).
      apply no_timer_running_owned, no_timer_running__tear_down, Hs.
    - intros connected inbound. unfold exec.
      rewrite (_reconnect_on_completes shut connected inbound s H).
      apply timers_owned__reconnect, Hs. }
  destruct (fortress_socket (self s)) as [fd|] eqn:Hfd; [|auto].
  destruct shut as [[]|e]; [auto|].
  assert (Ht : timers_owned (exec (_tear_down_on (Raise e)) s)).
  { unfold exec. rewrite (_tear_down_on_raises e s fd Hfd).
    eapply timers_owned_ext; [| | |exact Hs]; reflexivity. }
  split; [exact Ht|].
  intros connected inbound. unfold exec at 1, _reconnect_on, bind.
  unfold exec in Ht. destruct (_tear_down_on (Raise e) s) as [[a|x] s1] eqn:E.
  - rewrite (_tear_down_on_raises e s fd Hfd) in E. discriminate E.
  - exact Ht.
Qed.

Lemma timers_stay_owned_whatever_shutdown_witness :
  let s := exec (work (Raise OSError) []) fresh in
  timers_owned s /\
  timers_owned (exec (_reconnect_on (Raise OSError) (Ret tt) []) s).
Proof.
  intros s.
  assert (Hs : timers_owned s).
  { apply timers_owned_work; [exact timers_owned_fresh | reflexivity]. }
  split; [exact Hs|].
  destruct (timers_stay_owned_whatever_shutdown (Raise OSError) s Hs)
    as [_ H].
  apply H.
Defined.





(** X7: [work] is still in its loop when the input ends exactly when the
    connect succeeded and every loop event was a received buffer of an
    expected shape; any timeout, exception or unexpected buffer ends
    it. *)
Theorem work_waits_iff (connected : result unit) (inbound : list io)
    (s : State) :
  outcome (work connected inbound) s = Ret waiting <->
  connected = Ret tt /\ Forall expected_buffer inbound.
Proof.
  destruct connected as [[]|x].
  - unfold outcome. rewrite work_connected.
    fold (outcome (work_loop inbound) (exec (work_connect (Ret tt)) s)).
    rewrite work_loop_waiting.
    rewrite (exec_run _ _ _ _ (work_connect_run s)). cbn. tauto.
  - unfold outcome. rewrite work_refused. cbn.
    split; [discriminate | intros [H _]; discriminate H].
Qed.

(** X8: after a successful connect, a run of expected buffers is processed
    buffer by buffer in the order received, and [work] is then waiting
    for more. *)
Theorem work_feeds_expected_buffers (ds : list (list byte)) (s : State) :
  Forall (fun d => unexpected d = false) ds ->
  work (Ret tt) (map recv ds) s
  = (Ret waiting, feed ds (exec (work_connect (Ret tt)) s)).
Proof.
  intros Hds. rewrite work_connected. apply work_loop_feed; [|exact Hds].
  rewrite (exec_run _ _ _ _ (work_connect_run s)). reflexivity.
Qed.

Lemma work_feeds_expected_buffers_witness :
  Forall (fun d => unexpected d = false)
    [CONNECTION_IS_BOUND; status_frame x10 x05 x00] /\
  outcome getStatus
    (exec (work (Ret tt)
             (map recv [CONNECTION_IS_BOUND; status_frame x10 x05 x00]))
       fresh)
  = Ret (Some DISARM).
Proof.
  assert (H : Forall (fun d => unexpected d = false)
                [CONNECTION_IS_BOUND; status_frame x10 x05 x00])
    by (repeat constructor).
  split; [exact H|].
  unfold exec at 1. rewrite (work_feeds_expected_buffers _ fresh H).
  reflexivity.
Defined.

(** X9: once the alarm flag is stored true it stays true, and no alarm
    handler is invoked, through any run of buffers none of which is a
    182-byte frame that says Disarmed; unexpected buffers and heartbeat
    acknowledgements do not clear it either. *)
Theorem alarm_stays_latched (ds : list (list byte)) (s : State) :
  alarming (self s) = Some true ->
  (forall d, d ∈ ds -> length d = 182%nat ->
             latest_arm_status d <> Ret DISARM) ->
  outcome isAlarming (feed ds s) = Ret (Some true) /\
  alarm_calls (calls (world (feed ds s))) = alarm_calls (calls (world s)).
Proof.
  revert s. induction ds as [|d ds IH]; intros s Hal Hds.
  - cbn. rewrite Hal. auto.
  - rewrite feed_cons.
    destruct (latched_step d s Hal) as [Ha Hc].
    { apply Hds, list_elem_of_here. }
    destruct (IH (exec (_process_update d) s)) as [Ha' Hc'].
    + rewrite Ha. exact Hal.
    + intros d' Hin. apply Hds, list_elem_of_further, Hin.
    + split; [exact Ha' | rewrite Hc', Hc; reflexivity].
Qed.

Lemma alarm_stays_latched_witness :
  alarming (self armed_alarming) = Some true /\
  outcome isAlarming
    (feed [status_frame x00 x05 x00; HEARTBEAT_ACK; []; status_frame x20 x00 x00]
       armed_alarming)
  = Ret (Some true).
Proof.
  split; [reflexivity|].
  destruct (alarm_stays_latched
              [status_frame x00 x05 x00; HEARTBEAT_ACK; [];
               status_frame x20 x00 x00] armed_alarming eq_refl) as [H _].
  - intros d Hd Hl.
    repeat (apply elem_of_cons in Hd as [-> | Hd];
            [try discriminate Hl; vm_compute; discriminate|]).
    inversion Hd.
  - exact H.
Defined.

(** X10: processing the same 182-byte frame a second time invokes no
    handler and leaves the stored status and alarm flag as the first
    processing left them. *)
Theorem same_frame_twice (data : list byte) (s : State) :
  length data = 182%nat ->
  let s1 := exec (_process_update data) s in
  let s2 := exec (_process_update data) s1 in
  new_calls (_process_update data) s1 = [] /\
  arm_status (self s2) = arm_status (self s1) /\
  alarming (self s2) = alarming (self s1).
Proof.
  intros Hl s1 s2.
  destruct (decode_frame data Hl)
    as (b10 & b11 & b12 & b89 & b181 & _ & _ & _ & _ & _ & Hn & Hs & Hz).
  set (now := bool_decide (b181 = x01)) in *.
  set (latest := status_code b10) in *.
  assert (Hst1 : arm_status (self s1) = Some latest)
    by apply (_process_update_stores_status data s latest Hl Hs).
  assert (Hst2 : arm_status (self s2) = Some latest)
    by apply (_process_update_stores_status data s1 latest Hl Hs).
  assert (Hg : alarm_guard now latest s1 = false).
  { apply not_true_is_false. rewrite alarm_guard_spec. intros [Hd G].
    destruct (_process_update_alarm data s now latest _ Hl Hn Hs Hz)
      as [Hacc Hign]. fold s1 in Hacc, Hign.
    destruct (decide (Some now <> alarming (self s) /\
                      (alarming (self s) <> Some true \/ latest = DISARM)))
      as [Y|N].
    - destruct (Hacc Y) as [E _]. congruence.
    - destruct (Hign N) as [E _]. rewrite E in Hd, G. tauto. }
  split; [|split].
  - rewrite (_process_update_calls data s1 now latest _ Hl Hn Hs Hz).
    rewrite Hg, Hst1. rewrite bool_decide_eq_false_2 by tauto. reflexivity.
  - congruence.
  - destruct (_process_update_alarm data s1 now latest _ Hl Hn Hs Hz)
      as [_ Hign]. fold s2 in Hign.
    apply Hign. rewrite <- alarm_guard_spec, Hg. discriminate.
Qed.

Lemma same_frame_twice_witness :
  length (status_frame x10 x05 x01) = 182%nat /\
  new_calls (_process_update (status_frame x10 x05 x01))
    (exec (_process_update (status_frame x10 x05 x01)) fresh)
  = [].
Proof.
  split; [reflexivity|].
  destruct (same_frame_twice (status_frame x10 x05 x01) fresh eq_refl)
    as [H _].
  exact H.
Defined.



(** X12: with no socket held, [sendCommand] raises [AttributeError] and
    changes nothing, and [_send_heartbeat] raises [AttributeError] after
    it has raised the counter by one. *)
Theorem no_socket_raises (s : State) (msg : list byte) :
  fortress_socket (self s) = None ->
  sendCommand msg s = (Raise AttributeError, s) /\
  _send_heartbeat s
  = (Raise AttributeError,
     {| self := with_count (count (self s) + 1) (self s); world := world s |}).
Proof. intros H. open_state s. cbn in H. subst fs. split; reflexivity. Qed.

Lemma no_socket_raises_witness :
  fortress_socket (self fresh) = None /\
  outcome (sendCommand ARM) fresh = Raise AttributeError /\
  count (self (exec _send_heartbeat fresh)) = 1.
Proof.
  split; [reflexivity|].
  destruct (no_socket_raises fresh ARM eq_refl) as [H1 H2].
  unfold outcome, exec. rewrite H1, H2. split; reflexivity.
Defined.

(** X13: clearing the timers twice is clearing them once. *)
Theorem clear_timers_idempotent (s : State) :
  exec _clear_timers (exec _clear_timers s) = exec _clear_timers s /\
  outcome _clear_timers (exec _clear_timers s) = Ret tt.
Proof.
  split; [rewrite !(exec_run _ _ _ _ (_clear_timers_run _)); reflexivity|].
  unfold outcome. rewrite _clear_timers_run. reflexivity.
Qed.

(** X14: for a byte value, [_to_bin_char] followed by [int.from_bytes]
    (as [_set_alarming] applies it to the zone) gives the value back
    exactly when the value is below [0x80]; from [0x80] on
    [_to_bin_char] yields two bytes. *)
Theorem to_bin_char_round_trip (b : byte) :
  exists l,
    _to_bin_char (byte_to_Z b) = Ret l /\
    (length l = 1%nat <-> byte_to_Z b < 0x80) /\
    (int_from_bytes l = byte_to_Z b <-> byte_to_Z b < 0x80).
Proof.
  exists (utf8_of_byte b). split; [apply _to_bin_char_byte|].
  destruct b; vm_compute; split; split; intros H; congruence.
Qed.

(** X15: a reconnect whose teardown runs to completion (no socket was
    held, or the [shutdown] of the held socket returned) and whose
    connect succeeds tears the old session down before it opens the new
    one: the old socket, if any, is shut down and closed before the new
    socket connects and sends the handshake and the bind request; the
    status and alarm flag are forgotten, the counter is 0, health is
    true, the timers held before are cancelled and a new liveness timer
    and heartbeat timer run; the loop then starts from that state. *)
Theorem reconnect_starts_clean (shut : result unit) (inbound : list io)
    (s : State) :
  outcome (_tear_down_on shut) s = Ret tt ->
  _reconnect_on shut (Ret tt) inbound s =
  work_loop inbound
    {| self :=
         mkFortressConnection
           (Some (length (timers (world s))))
           (Some (sockets (world s)))
           None None
           (Some (S (length (timers (world s)))))
           true 0
           (_onStatusChange (self s)) (_onErrorChange (self s))
           (_onAlarmChange (self s));
       world :=
         mkWorld
           (cancel_ref (heartbeat_timer (self s))
              (cancel_ref (timeout_timer (self s)) (timers (world s)))
            ++ [mkTimer 9 (_reconnect_target EmptyString) false true false;
                mkTimer 4 _send_heartbeat_target true true false])
           (S (sockets (world s)))
           (wire (world s) ++ close_ref (fortress_socket (self s))
            ++ [sock_connect (sockets (world s));
                sock_send (sockets (world s)) HANDSHAKE;
                sock_send (sockets (world s)) BIND_ME])
           (calls (world s)
            ++ notify (_onErrorChange (self s)) (onErrorChange_call false)
            ++ notify (_onAlarmChange (self s)) (onAlarmChange_call None 0)
            ++ notify (_onErrorChange (self s)) (onErrorChange_call true)) |}.
Proof.
  intros H. apply _tear_down_on_outcome in H.
  rewrite (_reconnect_on_completes shut _ _ s H).
  rewrite _reconnect_work, work_connected. f_equal.
  rewrite (exec_run _ _ _ _ (work_connect_run _)).
  rewrite (exec_run _ _ _ _ (_tear_down_run s)). cbn.
  rewrite !length_cancel_ref, <- !app_assoc. reflexivity.
Qed.

Lemma reconnect_starts_clean_witness :
  let s := exec (work (Ret tt) [recv []]) fresh in
  outcome (_tear_down_on (Ret tt)) s = Ret tt /\
  outcome (_reconnect_on (Ret tt) (Ret tt) []) s = Ret waiting /\
  wire (world (exec (_reconnect_on (Ret tt) (Ret tt) []) s))
  = wire (world s)
    ++ [sock_shutdown 0; sock_close 0; sock_connect 1;
        sock_send 1 HANDSHAKE; sock_send 1 BIND_ME].
Proof.
  intros s.
  assert (H : outcome (_tear_down_on (Ret tt)) s = Ret tt) by reflexivity.
  split; [exact H|].
  unfold outcome, exec. rewrite (reconnect_starts_clean (Ret tt) [] s H).
  split; reflexivity.
Defined.

(** X23: a reconnect whose teardown meets a raising [shutdown] ends
    there with that exception: [work] is never entered, so no socket is
    created and nothing is connected or sent; the old socket stays in
    the attribute, no timer is cancelled or started and health is
    false. *)
Theorem reconnect_dies_at_failed_shutdown (e : exn)
    (connected : result unit) (inbound : list io) (s : State) (fd : nat) :
  fortress_socket (self s) = Some fd ->
  let s' := exec (_reconnect_on (Raise e) connected inbound) s in
  outcome (_reconnect_on (Raise e) connected inbound) s = Raise e /\
  s' = exec (_tear_down_on (Raise e)) s /\
  sockets (world s') = sockets (world s) /\
  wire (world s') = wire (world s) ++ [sock_shutdown fd] /\
  fortress_socket (self s') = Some fd /\
  timers (world s') = timers (world s) /\
  all_good (self s') = false.
Proof.
  intros Hfd s'. subst s'. unfold outcome, exec, _reconnect_on, bind.
  rewrite (_tear_down_on_raises e s fd Hfd). cbn [fst snd].
  repeat split. cbn. exact Hfd.
Qed.

Lemma reconnect_dies_at_failed_shutdown_witness :
  let s := exec (work (Raise OSError) []) fresh in
  fortress_socket (self s) = Some 0%nat /\
  outcome (_reconnect_on (Raise OSError) (Ret tt) []) s = Raise OSError /\
  wire (world (exec (_reconnect_on (Raise OSError) (Ret tt) []) s))
  = [sock_connect 0; sock_shutdown 0].
Proof.
  intros s.
  assert (H : fortress_socket (self s) = Some 0%nat) by reflexivity.
  split; [exact H|].
  destruct (reconnect_dies_at_failed_shutdown OSError (Ret tt) [] s 0 H)
    as (Ho & _ & _ & Hw & _).
  split; [exact Ho | exact Hw].
Defined.

(** X16: when the connect raises, whatever the exception, [work]
    returns without reading any input: the new socket stays in the attribute, only the
    connect was attempted on it, health is false, a started 3-unit
    reconnect timer is stored and the heartbeat attribute is [None]; the
    status and the alarm flag are untouched. *)
Theorem refused_connect_retries (e : exn) (inbound : list io) (s : State) :
  let s' := exec (work (Raise e) inbound) s in
  outcome (work (Raise e) inbound) s = Ret returned /\
  all_good (self s') = false /\
  fortress_socket (self s') = Some (sockets (world s)) /\
  wire (world s') = wire (world s) ++ [sock_connect (sockets (world s))] /\
  timeout_timer (self s') = Some (length (timers (world s))) /\
  timers (world s') !! length (timers (world s))
  = Some (mkTimer 3 (_reconnect_target "...AFTER EXCEPTION") false true false) /\
  heartbeat_timer (self s') = None /\
  arm_status (self s') = arm_status (self s) /\
  alarming (self s') = alarming (self s) /\
  calls (world s')
  = calls (world s)
    ++ notify (_onErrorChange (self s)) (onErrorChange_call false).
Proof.
  cbv zeta. unfold outcome, exec. rewrite work_refused. cbn [fst snd].
  rewrite (exec_run _ _ _ _ (_reschedule_reconnect_asap_run _)). cbn.
  repeat split.
  rewrite <- (length_cancel_ref (timeout_timer (self s))).
  rewrite <- (length_cancel_ref (heartbeat_timer (self s))).
  apply lookup_new.
Qed.



(** X19: in a healthy client any other exception from [select] or [recv]
    and any unexpected buffer end the loop the same way: [work] returns
    after the error path ([_reschedule_reconnect_asap]) and the rest of
    the input is not read. *)
Theorem loop_failure_reschedules (inbound : list io) (s : State) :
  all_good (self s) = true ->
  (forall e, e <> KeyboardInterrupt -> e <> SystemExit ->
     work_loop (io_raise e :: inbound) s
     = (Ret returned, exec _reschedule_reconnect_asap s)) /\
  (forall data, unexpected data = true ->
     work_loop (recv data :: inbound) s
     = (Ret returned, exec _reschedule_reconnect_asap s)).
Proof.
  intros Hg. split.
  - intros e H1 H2. rewrite (work_loop_turn _ inbound s Hg).
    destruct e; try reflexivity; contradiction.
  - intros data Hu. apply work_loop_unexpected; assumption.
Qed.

Lemma loop_failure_reschedules_witness :
  let s := exec (work_connect (Ret tt)) fresh in
  all_good (self s) = true /\
  work_loop [io_raise OSError; recv HEARTBEAT_ACK] s
  = work_loop [recv []] s.
Proof.
  intros s. split; [reflexivity|].
  destruct (loop_failure_reschedules [recv HEARTBEAT_ACK] s eq_refl)
    as [H1 _].
  destruct (loop_failure_reschedules [] s eq_refl) as [_ H2].
  rewrite H1 by discriminate. rewrite H2 by reflexivity. reflexivity.
Defined.

(** X20: for a 182-byte frame the handlers invoked are, in this order,
    the status handler with the decoded status, exactly when it differs
    from the stored status, and the alarm handler with the decoded flag
    and zone number, exactly when the alarm guard passes; no other
    handler is invoked. *)
Theorem status_frame_notifications (data : list byte) (s : State) :
  length data = 182%nat ->
  exists now latest z,
    now_alarming data = Ret now /\
    latest_arm_status data = Ret latest /\
    zone data = Ret z /\
    new_calls (_process_update data) s
    = (if bool_decide (Some latest <> arm_status (self s))
       then notify (_onStatusChange (self s))
              (onStatusChange_call (Some latest))
       else [])
      ++ (if bool_decide (Some now <> alarming (self s))
             && (negb (truthy_flag (alarming (self s)))
                 || bool_decide (latest = DISARM))
          then notify (_onAlarmChange (self s))
                 (onAlarmChange_call (Some now) (int_from_bytes z))
          else []).
Proof.
  intros Hl.
  destruct (decode_frame data Hl)
    as (b10 & b11 & b12 & b89 & b181 & _ & _ & _ & _ & _ & Hn & Hs & Hz).
  eexists _, _, _. repeat (split; [eassumption|]).
  apply (_process_update_calls data s _ _ _ Hl Hn Hs Hz).
Qed.

Lemma status_frame_notifications_witness :
  length (status_frame x10 x07 x01) = 182%nat /\
  new_calls (_process_update (status_frame x10 x07 x01)) fresh
  = [onStatusChange_call (Some DISARM); onAlarmChange_call (Some true) 7].
Proof.
  split; [reflexivity|].
  destruct (status_frame_notifications (status_frame x10 x07 x01) fresh
              eq_refl) as (now & latest & z & Hn & Hs & Hz & H).
  injection Hn as <-. injection Hs as <-. injection Hz as <-.
  exact H.
Defined.


